(** * youtube_downloader_app.py: a shallow embedding of the Streamlit script

    The script is re-executed from top to bottom on every user interaction;
    [st.session_state] survives between executions.  One execution is the
    function [run_script] below; a download attempt is the part of it guarded
    by [download_triggered] (source lines 77-173).

    Conventions.
    - A Python [str] is a list of Unicode code points.
    - A Python [int] is a [Z]; [//] and [%] by a positive constant are
      [Z.div] and [Z.modulo].
    - A Python [float] is the rational it denotes; every float operation is
      the exact operation followed by the rounding [fl], a parameter.
    - [bytes] is a list of [byte].
    - [None] or a value is an [option].
    - An exception is an instance of [Exception], identified with its
      message [str(e)], the only thing the handler at line 165 reads.
    - The page is what the four placeholders of lines 71-74 show, together
      with the list of everything drawn into them.
    - The calls into the resolver are recorded in a trace, each with the
      session state it saw. *)

From Stdlib Require Import ZArith NArith QArith List Bool Ascii String Lia.
From Stdlib Require Import Strings.Byte.
From Stdlib Require Import DecimalString.
From Stdlib Require Import Sorting.Sorted.
Import ListNotations.

Set Implicit Arguments.

(* ------------------------------------------------------------------ *)
(** ** Python strings *)

Module PyStr.

Definition char := N.
Definition str := list char.

Definition ch (a : ascii) : char := N_of_ascii a.

(** A string literal of the source. *)
Definition lit (s : string) : str := List.map ch (list_ascii_of_string s).

Definition char_eqb (a b : char) : bool := N.eqb a b.

Fixpoint str_eqb (a b : str) : bool :=
  match a, b with
  | [], [] => true
  | x :: a', y :: b' => char_eqb x y && str_eqb a' b'
  | _, _ => false
  end.

(** [c in (x, y, ...)] for one-character strings. *)
Definition char_in (c : char) (l : list char) : bool := existsb (char_eqb c) l.

Definition in_range (lo hi c : N) : bool := ((lo <=? c) && (c <=? hi))%N.

(** [str.isalnum] and [str.isspace] on the ASCII range. *)
Definition ascii_isalnum (c : char) : bool :=
  in_range 48 57 c || in_range 65 90 c || in_range 97 122 c.

Definition ascii_isspace (c : char) : bool :=
  in_range 9 13 c || in_range 28 32 c.

(** [str.upper] on the ASCII range; the script applies it only to the
    literals assigned to [download_type] at lines 57 and 65. *)
Definition ascii_upper (c : char) : char :=
  if in_range 97 122 c then (c - 32)%N else c.

Definition upper (s : str) : str := List.map ascii_upper s.

(** [str(n)] for an int. *)
Definition str_of_int (z : Z) : str := lit (NilZero.string_of_int (Z.to_int z)).

Fixpoint startswith (s p : str) {struct p} : bool :=
  match p, s with
  | [], _ => true
  | x :: p', y :: s' => char_eqb x y && startswith s' p'
  | _ :: _, [] => false
  end.

(** [p in s] for strings. *)
Fixpoint contains (s p : str) : bool :=
  startswith s p ||
  match s with
  | [] => false
  | _ :: s' => contains s' p
  end.

Definition endswith (s p : str) : bool := startswith (rev s) (rev p).

(** Truthiness of a [str] or [bytes] value: non-empty. *)
Definition nonempty {A} (l : list A) : bool :=
  match l with [] => false | _ :: _ => true end.

End PyStr.
Import PyStr.

Definition bytes := list byte.

(* ------------------------------------------------------------------ *)
(** ** Exceptions *)

Inductive Exc (A : Type) : Type :=
| Ok (a : A)
| Raise (e : str).
Arguments Ok {A} a.
Arguments Raise {A} e.

(* ------------------------------------------------------------------ *)
(** ** The stream resolver (pytube), as the script sees it

    Modelled from the spec: the resolver library is an external collaborator
    (section 6, "Stream Resolver"); only its observable contract is
    described here.  A stream carries the attributes the script's queries
    read, and the behaviour of its transfer: the chunks it delivers and how
    the transfer ends. *)

Inductive MediaType := audio | video.

Inductive TransferEnd :=
| Completes                (* transport signals completion: on_complete fires *)
| ReturnsSilently          (* returns, completion callback never fired *)
| Fails (e : str).         (* raises after the delivered chunks *)

Record Stream := mkStream {
  is_progressive : bool;
  stype : MediaType;
  subtype : str;
  resolution : option N;    (* the number in "720p" *)
  abr : option N;           (* the number in "128kbps" *)
  filesize : Z;
  chunks : list bytes;
  ending : TransferEnd }.

(** What [YouTube(url, ...)] gives: [.title], [.length] and [.streams]
    (fetching the stream list may itself raise). *)
Record Video := mkVideo {
  yt_title : str;
  yt_length : Z;
  yt_streams : Exc (list Stream) }.

(** The resolver of one script execution: the constructor call may raise. *)
Definition Resolver := str -> Exc Video.

(* ------------------------------------------------------------------ *)
(** ** st.session_state *)

Record Session := mkSession {
  download_progress : Q;
  download_complete : bool;
  video_info : option str;
  download_error : option str;
  download_data : option bytes;
  download_filename : option str;
  download_mime : option str;
  download_type : option str }.   (* [None]: the key is absent *)

Definition set_download_progress (v : Q) (s : Session) : Session :=
  mkSession v (download_complete s) (video_info s) (download_error s)
            (download_data s) (download_filename s) (download_mime s) (download_type s).
Definition set_download_complete (v : bool) (s : Session) : Session :=
  mkSession (download_progress s) v (video_info s) (download_error s)
            (download_data s) (download_filename s) (download_mime s) (download_type s).
Definition set_video_info (v : option str) (s : Session) : Session :=
  mkSession (download_progress s) (download_complete s) v (download_error s)
            (download_data s) (download_filename s) (download_mime s) (download_type s).
Definition set_download_error (v : option str) (s : Session) : Session :=
  mkSession (download_progress s) (download_complete s) (video_info s) v
            (download_data s) (download_filename s) (download_mime s) (download_type s).
Definition set_download_data (v : option bytes) (s : Session) : Session :=
  mkSession (download_progress s) (download_complete s) (video_info s) (download_error s)
            v (download_filename s) (download_mime s) (download_type s).
Definition set_download_filename (v : option str) (s : Session) : Session :=
  mkSession (download_progress s) (download_complete s) (video_info s) (download_error s)
            (download_data s) v (download_mime s) (download_type s).
Definition set_download_mime (v : option str) (s : Session) : Session :=
  mkSession (download_progress s) (download_complete s) (video_info s) (download_error s)
            (download_data s) (download_filename s) v (download_type s).
Definition set_download_type (v : option str) (s : Session) : Session :=
  mkSession (download_progress s) (download_complete s) (video_info s) (download_error s)
            (download_data s) (download_filename s) (download_mime s) v.

(** Lines 29-42: every key that is missing gets its default.  The seven keys
    are written together, so a store either lacks all of them (a fresh
    session) or has them all. *)
Definition init_session_state (store : option Session) : Session :=
  match store with
  | Some s => s
  | None => mkSession 0 false None None None None None None
  end.

(** Truthiness of an optional [str] or [bytes]: neither [None] nor empty. *)
Definition truthy {A} (o : option (list A)) : bool :=
  match o with Some l => nonempty l | None => false end.

(* ------------------------------------------------------------------ *)
(** ** The page *)

Inductive Element :=
| Spinner (text : str)
| Markdown (body : option str)
| ErrorBox (body : option str)
| SuccessBox (body : str)
| InfoBox (body : str)
| ProgressBar (value : Q)
| DownloadButton (label : str) (data : option bytes)
                 (file_name : option str) (mime : option str).

(** The four [st.empty()] slots of lines 71-74. *)
Inductive Placeholder :=
| status_placeholder | progress_placeholder
| info_placeholder | download_button_placeholder.

(** A slot shows the elements last put into it; [[]] is an empty slot.
    [drawn] keeps everything that was put into a slot during the execution,
    in order. *)
Record Page := mkPage {
  warnings : list str;          (* [st.warning] of lines 60 and 68 *)
  status_slot : list Element;
  progress_slot : list Element;
  info_slot : list Element;
  button_slot : list Element;
  drawn : list (Placeholder * list Element) }.

Definition set_slot (p : Placeholder) (v : list Element) (u : Page) : Page :=
  match p with
  | status_placeholder =>
      mkPage (warnings u) v (progress_slot u) (info_slot u) (button_slot u)
             (drawn u ++ [(p, v)])
  | progress_placeholder =>
      mkPage (warnings u) (status_slot u) v (info_slot u) (button_slot u)
             (drawn u ++ [(p, v)])
  | info_placeholder =>
      mkPage (warnings u) (status_slot u) (progress_slot u) v (button_slot u)
             (drawn u ++ [(p, v)])
  | download_button_placeholder =>
      mkPage (warnings u) (status_slot u) (progress_slot u) (info_slot u) v
             (drawn u ++ [(p, v)])
  end.

Definition add_warning (w : str) (u : Page) : Page :=
  mkPage (warnings u ++ [w]) (status_slot u) (progress_slot u) (info_slot u)
         (button_slot u) (drawn u).

Definition blank_page : Page := mkPage [] [] [] [] [] [].

(** The elements [v] were put into slot [p] at some point. *)
Definition was_drawn (p : Placeholder) (v : list Element) (u : Page) : Prop :=
  In (p, v) (drawn u).

(* ------------------------------------------------------------------ *)
(** ** The world of one execution, and the monad of the script *)

(** Calls into the resolver, recorded with the session state they see. *)
Inductive Call :=
| CallYouTube (url : str)
| CallStreams
| CallStreamToBuffer (s : Stream).

Record Event := mkEvent { ev_call : Call; ev_state : Session }.

Record World := mkWorld {
  session : Session;
  page : Page;
  trace : list Event }.

(** A statement: it changes the world and either ends normally or raises.
    What it did before raising stays done. *)
Definition M (A : Type) : Type := World -> World * Exc A.

Definition ret {A} (a : A) : M A := fun w => (w, Ok a).

Definition bind {A B} (c : M A) (k : A -> M B) : M B :=
  fun w => match c w with
           | (w', Ok a) => k a w'
           | (w', Raise e) => (w', Raise e)
           end.

Definition raise {A} (e : str) : M A := fun w => (w, Raise e).

Declare Scope py_scope.
Delimit Scope py_scope with py.
Notation "x <- c ;; k" := (bind c (fun x => k))
  (at level 61, c at next level, right associativity) : py_scope.
Notation "c ;; k" := (bind c (fun _ => k))
  (at level 61, right associativity) : py_scope.
Open Scope py_scope.

(** [try: body except Exception as e: handler(e)]. *)
Definition try_except (body : M unit) (handler : str -> M unit) : M unit :=
  fun w => match body w with
           | (w', Ok _) => (w', Ok tt)
           | (w', Raise e) => handler e w'
           end.

Definition lift_exc {A} (x : Exc A) : M A :=
  match x with Ok a => ret a | Raise e => raise e end.

Definition gets {A} (f : Session -> A) : M A := fun w => (w, Ok (f (session w))).

Definition assign (f : Session -> Session) : M unit :=
  fun w => (mkWorld (f (session w)) (page w) (trace w), Ok tt).

Definition draw (f : Page -> Page) : M unit :=
  fun w => (mkWorld (session w) (f (page w)) (trace w), Ok tt).

Definition record (c : Call) : M unit :=
  fun w => (mkWorld (session w) (page w) (trace w ++ [mkEvent c (session w)]), Ok tt).

(** [with p.container(): with st.spinner(text): body]: the spinner is shown
    while [body] runs and removed when the block is left, normally or not;
    an empty container stays in the slot. *)
Definition with_spinner {A} (p : Placeholder) (text : str) (body : M A) : M A :=
  fun w => match (draw (set_slot p [Spinner text]) ;; body) w with
           | (w', r) => (mkWorld (session w') (set_slot p [] (page w')) (trace w'), r)
           end.

(* ------------------------------------------------------------------ *)
(** ** Stream queries and transfer (pytube)

    Modelled from the spec: [StreamQuery.filter], [order_by], [desc],
    [first] and [Stream.stream_to_buffer] belong to the resolver library,
    which the repository does not contain (section 4.1, step 3 and
    section 6). *)

Module Pytube.

Definition includes_audio_track (s : Stream) : bool :=
  is_progressive s || match stype s with audio => true | video => false end.

Definition includes_video_track (s : Stream) : bool :=
  is_progressive s || match stype s with video => true | audio => false end.

(** [filter(progressive=True, file_extension=ext)]. *)
Definition filter_progressive (ext : str) (l : list Stream) : list Stream :=
  filter (fun s => is_progressive s && str_eqb (subtype s) ext) l.

(** [filter(only_audio=True)]. *)
Definition filter_only_audio (l : list Stream) : list Stream :=
  filter (fun s => includes_audio_track s && negb (includes_video_track s)) l.

Fixpoint insert_by (key : Stream -> N) (x : Stream) (l : list Stream) : list Stream :=
  match l with
  | [] => [x]
  | y :: l' => if (key x <? key y)%N then x :: y :: l' else y :: insert_by key x l'
  end.

Definition has_attr (attr : Stream -> option N) (s : Stream) : bool :=
  match attr s with Some _ => true | None => false end.

Definition attr_key (attr : Stream -> option N) (s : Stream) : N :=
  match attr s with Some n => n | None => 0%N end.

(** [order_by(attr)]: the streams that have the attribute, in ascending
    order of it (a stable sort). *)
Definition order_by (attr : Stream -> option N) (l : list Stream) : list Stream :=
  fold_left (fun acc x => insert_by (attr_key attr) x acc)
            (filter (has_attr attr) l) [].

Definition desc (l : list Stream) : list Stream := rev l.

(** [first()]: the first stream, or [None]. *)
Definition first (l : list Stream) : option Stream := hd_error l.

(** [stream.stream_to_buffer(buffer)]: each chunk is written to the buffer
    and announced to the progress callback with the bytes still to come;
    then the transfer ends as the stream says. *)
Fixpoint deliver (on_progress : Stream -> bytes -> Z -> M unit)
         (s : Stream) (cs : list bytes) (bytes_remaining : Z) (buffer : bytes)
  : M bytes :=
  match cs with
  | [] => ret buffer
  | chunk :: cs' =>
      let bytes_remaining := (bytes_remaining - Z.of_nat (List.length chunk))%Z in
      let buffer := buffer ++ chunk in
      on_progress s chunk bytes_remaining ;;
      deliver on_progress s cs' bytes_remaining buffer
  end.

Definition stream_to_buffer
           (on_progress : Stream -> bytes -> Z -> M unit)
           (on_complete : Stream -> option str -> M unit)
           (s : Stream) (buffer : bytes) : M bytes :=
  record (CallStreamToBuffer s) ;;
  buffer <- deliver on_progress s (chunks s) (filesize s) buffer ;;
  match ending s with
  | Completes => on_complete s None ;; ret buffer
  | ReturnsSilently => ret buffer
  | Fails e => raise e
  end.

End Pytube.

(* ------------------------------------------------------------------ *)
(** ** Concrete resolvers, used to run the script

    The scenarios of section 8 of the specification, and a few more. *)

Module Scenario.

(** Rounding that loses nothing, and a character database with nothing
    beyond ASCII. *)
Definition no_rounding (q : Q) : Q := q.
Definition ascii_only (c : char) : bool := false.

Definition url : str := lit "https://www.youtube.com/watch?v=abc".

Definition payload : list bytes := [[x00; x01; x02]; [x03]].

(** One progressive mp4 stream at 720p, four bytes long. *)
Definition progressive_720p : Stream :=
  mkStream true video (lit "mp4") (Some 720%N) (Some 128%N) 4 payload Completes.

(** An audio-only webm stream whose connection breaks after two chunks. *)
Definition audio_broken : Stream :=
  mkStream false audio (lit "webm") None (Some 160%N) 9 payload
           (Fails (lit "Connection reset by peer")).

(** An audio-only stream of no bytes at all. *)
Definition audio_empty : Stream :=
  mkStream false audio (lit "webm") None (Some 160%N) 0 [] Completes.

(** An audio-only stream of size zero that still announces one (empty)
    chunk. *)
Definition audio_zero_size : Stream :=
  mkStream false audio (lit "webm") None (Some 160%N) 0 [[]] Completes.

Definition test_video (l : list Stream) : Video :=
  mkVideo (lit "Test: Video!") 125 (Ok l).

(** Scenarios A and B: one progressive stream, no audio-only stream. *)
Definition resolver_A : Resolver := fun _ => Ok (test_video [progressive_720p]).

(** Scenario C: the URL is rejected. *)
Definition resolver_C : Resolver :=
  fun _ => Raise (lit "regex_search: could not find match for (?:v=|\/)([0-9A-Za-z_-]{11}).*").

Definition resolver_broken : Resolver := fun _ => Ok (test_video [audio_broken]).

Definition resolver_empty : Resolver := fun _ => Ok (test_video [audio_empty]).

Definition resolver_zero_size : Resolver := fun _ => Ok (test_video [audio_zero_size]).

(** A video whose title has no character a filename keeps. *)
Definition resolver_symbols : Resolver :=
  fun _ => Ok (mkVideo (lit "?!") 10 (Ok [progressive_720p])).

End Scenario.

(* ------------------------------------------------------------------ *)
(** ** The script *)

Section App.

(** Rounding to the nearest float. *)
Variable fl : Q -> Q.

(** [str.isalnum] and [str.isspace] outside the ASCII range (the Unicode
    character database). *)
Variable uni_isalnum uni_isspace : char -> bool.

Definition isalnum (c : char) : bool :=
  if (c <? 128)%N then ascii_isalnum c else uni_isalnum c.

Definition isspace (c : char) : bool :=
  if (c <? 128)%N then ascii_isspace c else uni_isspace c.

(** [s.rstrip()]. *)
Definition rstrip (s : str) : str :=
  fold_right (fun c acc => if isspace c && negb (nonempty acc) then [] else c :: acc)
             [] s.

(** Line 102. *)
Definition sanitized (title : str) : str :=
  rstrip (filter (fun c => isalnum c || char_in c [ch " "; ch "."; ch "_"; ch "-"])
                 title).

(** Line 103. *)
Definition info_text (yt : Video) : str :=
  lit "**Title:** " ++ yt_title yt ++ [10%N] ++ lit "**Length:** "
      ++ str_of_int (yt_length yt / 60) ++ lit "m "
      ++ str_of_int (yt_length yt mod 60) ++ lit "s".

(** [a / b] on ints: the rounded quotient, or ZeroDivisionError. *)
Definition true_div (a b : Z) : Exc Q :=
  if (b =? 0)%Z then Raise (lit "division by zero")
  else Ok (fl (inject_Z a / inject_Z b)).

(** Lines 9-15. *)
Definition progress_callback (stream : Stream) (chunk : bytes) (bytes_remaining : Z)
  : M unit :=
  let total_size := filesize stream in
  let bytes_downloaded := (total_size - bytes_remaining)%Z in
  ratio <- lift_exc (true_div bytes_downloaded total_size) ;;
  let percentage := fl (ratio * 100) in
  assign (set_download_progress percentage).

(** Lines 17-19. *)
Definition complete_callback (stream : Stream) (file_path : option str) : M unit :=
  assign (set_download_complete true).

(** Reading [st.session_state.download_type]; an absent key raises. *)
Definition read_download_type : M str :=
  t <- gets download_type ;;
  match t with
  | Some t => ret t
  | None => raise (lit "st.session_state has no attribute download_type")
  end.

(** Lines 55-60 and 63-68: one button. *)
Definition button (pressed : bool) (url : str) (kind : str) (download_triggered : bool)
  : M bool :=
  if pressed then
    if nonempty url then
      assign (set_download_type (Some kind)) ;; ret true
    else
      draw (add_warning (lit "Please enter a YouTube URL.")) ;; ret download_triggered
  else ret download_triggered.

(** Lines 79-90. *)
Definition reset_state : M unit :=
  assign (set_download_progress 0) ;;
  assign (set_download_complete false) ;;
  assign (set_video_info None) ;;
  assign (set_download_error None) ;;
  assign (set_download_data None) ;;
  assign (set_download_filename None) ;;
  assign (set_download_mime None) ;;
  draw (set_slot status_placeholder []) ;;
  draw (set_slot progress_placeholder []) ;;
  draw (set_slot info_placeholder []) ;;
  draw (set_slot download_button_placeholder []).

(** Line 114: the query for the video. *)
Definition best_progressive_mp4 (l : list Stream) : option Stream :=
  Pytube.first (Pytube.desc (Pytube.order_by resolution
                 (Pytube.filter_progressive (lit "mp4") l))).

(** Line 123: the query for the audio track. *)
Definition best_audio (l : list Stream) : option Stream :=
  Pytube.first (Pytube.desc (Pytube.order_by abr (Pytube.filter_only_audio l))).

(** Lines 112-118 and 121-128: the query, then the name and MIME type. *)
Definition pick_stream (yt : Video) (spinner_text : str)
           (query : list Stream -> option Stream)
           (sanitized_title file_extension mime_type : str) : M (option Stream) :=
  with_spinner status_placeholder spinner_text
    (record CallStreams ;;
     streams <- lift_exc (yt_streams yt) ;;
     let stream := query streams in
     assign (set_download_filename (Some (sanitized_title ++ file_extension))) ;;
     assign (set_download_mime (Some mime_type)) ;;
     ret stream).

(** Lines 94-162, the body of the [try]. *)
Definition try_body (resolve : Resolver) (url : str) : M unit :=
  r <- with_spinner status_placeholder (lit "Fetching video info... Please wait.")
         (record (CallYouTube url) ;;
          yt <- lift_exc (resolve url) ;;
          let sanitized_title := sanitized (yt_title yt) in
          assign (set_video_info (Some (info_text yt))) ;;
          ret (yt, sanitized_title)) ;;
  let '(yt, sanitized_title) := r in
  info <- gets video_info ;;
  draw (set_slot info_placeholder [Markdown info]) ;;
  t <- read_download_type ;;
  stream <-
    (if str_eqb t (lit "mp4") then
       pick_stream yt (lit "Getting MP4 stream...") best_progressive_mp4
         sanitized_title (lit ".mp4") (lit "video/mp4")
     else
       t <- read_download_type ;;
       if str_eqb t (lit "mp3") then
         pick_stream yt (lit "Getting Audio stream...") best_audio
           sanitized_title (lit ".mp3") (lit "audio/mp3")
       else ret None) ;;
  match stream with
  | None =>
      t <- read_download_type ;;
      assign (set_download_error
                (Some (lit "No suitable " ++ upper t ++ lit " stream found."))) ;;
      err <- gets download_error ;;
      draw (set_slot status_placeholder [ErrorBox err])
  | Some stream =>
      t <- read_download_type ;;
      buffer <- with_spinner status_placeholder
                  (lit "Downloading " ++ upper t ++ lit "...")
                  (p <- gets download_progress ;;
                   draw (set_slot progress_placeholder [ProgressBar (fl (p / 100))]) ;;
                   Pytube.stream_to_buffer progress_callback complete_callback
                                           stream []) ;;
      assign (set_download_data (Some buffer)) ;;
      complete <- gets download_complete ;;
      if complete then
        draw (set_slot status_placeholder [SuccessBox (lit "Download Ready!")]) ;;
        draw (set_slot progress_placeholder [])
      else
        draw (set_slot status_placeholder [SuccessBox (lit "Processing Complete!")]) ;;
        draw (set_slot progress_placeholder [])
  end.

(** Lines 165-173, the handler. *)
Definition on_exception (e : str) : M unit :=
  assign (set_download_error (Some (lit "An error occurred: " ++ e))) ;;
  err <- gets download_error ;;
  draw (set_slot status_placeholder [ErrorBox err]) ;;
  assign (set_download_data None) ;;
  assign (set_video_info None) ;;
  draw (set_slot progress_placeholder []) ;;
  draw (set_slot info_placeholder []) ;;
  draw (set_slot download_button_placeholder []).

(** Lines 77-173: one download attempt. *)
Definition download_attempt (resolve : Resolver) (url : str) : M unit :=
  reset_state ;;
  try_except (try_body resolve url) on_exception.

(** Lines 177-192: what is shown at the end of every execution. *)
Definition render (download_triggered : bool) : M unit :=
  data <- gets download_data ;;
  name <- gets download_filename ;;
  (if truthy data && truthy name then
     mime <- gets download_mime ;;
     draw (set_slot download_button_placeholder
             [DownloadButton (lit "Click to Download " ++ match name with
                                                          | Some n => n
                                                          | None => []
                                                          end)
                             data name mime;
              InfoBox (lit "Note: MP3 is the highest quality audio stream available, saved with an .mp3 extension (actual format might be different but usually compatible).")])
   else ret tt) ;;
  info <- gets video_info ;;
  data <- gets download_data ;;
  (if truthy info && negb download_triggered && negb (truthy data) then
     draw (set_slot info_placeholder [Markdown info])
   else ret tt) ;;
  err <- gets download_error ;;
  (if truthy err && negb download_triggered then
     draw (set_slot status_placeholder [ErrorBox err])
   else ret tt).

(** The whole script, lines 25-192. *)
Definition script (resolve : Resolver) (url : str) (mp4_pressed mp3_pressed : bool)
  : M unit :=
  download_triggered <- button mp4_pressed url (lit "mp4") false ;;
  download_triggered <- button mp3_pressed url (lit "mp3") download_triggered ;;
  (if download_triggered then download_attempt resolve url else ret tt) ;;
  render download_triggered.

(** One execution, from the state the session had before it ([None] on
    the first execution). *)
Definition run_script (resolve : Resolver) (url : str)
           (mp4_pressed mp3_pressed : bool) (store : option Session)
  : World * Exc unit :=
  script resolve url mp4_pressed mp3_pressed
         (mkWorld (init_session_state store) blank_page []).

Definition after (r : World * Exc unit) : Session := session (fst r).

(** The session states the script can leave behind. *)
Inductive reachable : Session -> Prop :=
| reachable_first resolve url b4 b3 :
    reachable (after (run_script resolve url b4 b3 None))
| reachable_next st resolve url b4 b3 :
    reachable st ->
    reachable (after (run_script resolve url b4 b3 (Some st))).

(** The download button is on the page. *)
Definition shows_download_button (u : Page) : bool :=
  existsb (fun e => match e with DownloadButton _ _ _ _ => true | _ => false end)
          (button_slot u).

(** The bytes went through [stream_to_buffer]. *)
Definition transferred (t : list Event) : bool :=
  existsb (fun e => match ev_call e with CallStreamToBuffer _ => true | _ => false end)
          t.

(** A store the script can be started from: none yet, or a reachable one. *)
Definition startable (store : option Session) : Prop :=
  match store with
  | None => True
  | Some st => reachable st
  end.

(** The two kinds of attempt, as lines 111-128 tell them apart: the value
    of [download_type], the query, the extension and the MIME type. *)
Inductive Kind : str -> (list Stream -> option Stream) -> str -> str -> Prop :=
| kind_mp4 : Kind (lit "mp4") best_progressive_mp4 (lit ".mp4") (lit "video/mp4")
| kind_mp3 : Kind (lit "mp3") best_audio (lit ".mp3") (lit "audio/mp3").

(** The ways an attempt can end, read off the world it leaves: the
    session state, whether [stream_to_buffer] was called, and the info
    slot of the page. *)
Inductive Outcome (resolve : Resolver) (url t : str)
          (query : list Stream -> option Stream) (ext mime : str) (w : World)
  : Prop :=
| out_unresolved e :
    resolve url = Raise e ->
    download_error (session w) = Some (lit "An error occurred: " ++ e) ->
    download_data (session w) = None -> video_info (session w) = None ->
    download_filename (session w) = None -> download_mime (session w) = None ->
    transferred (trace w) = false ->
    Outcome resolve url t query ext mime w
| out_unlisted yt e :
    resolve url = Ok yt -> yt_streams yt = Raise e ->
    was_drawn info_placeholder [Markdown (Some (info_text yt))] (page w) ->
    download_error (session w) = Some (lit "An error occurred: " ++ e) ->
    download_data (session w) = None -> video_info (session w) = None ->
    download_filename (session w) = None -> download_mime (session w) = None ->
    transferred (trace w) = false ->
    Outcome resolve url t query ext mime w
| out_no_stream yt l :
    resolve url = Ok yt -> yt_streams yt = Ok l -> query l = None ->
    was_drawn info_placeholder [Markdown (Some (info_text yt))] (page w) ->
    download_error (session w)
    = Some (lit "No suitable " ++ upper t ++ lit " stream found.") ->
    download_data (session w) = None ->
    video_info (session w) = Some (info_text yt) ->
    download_filename (session w) = Some (sanitized (yt_title yt) ++ ext) ->
    download_mime (session w) = Some mime ->
    transferred (trace w) = false ->
    Outcome resolve url t query ext mime w
| out_failed yt l s e :
    resolve url = Ok yt -> yt_streams yt = Ok l -> query l = Some s ->
    was_drawn info_placeholder [Markdown (Some (info_text yt))] (page w) ->
    (exists w0, snd (Pytube.stream_to_buffer progress_callback complete_callback
                                             s [] w0) = Raise e) ->
    download_error (session w) = Some (lit "An error occurred: " ++ e) ->
    download_data (session w) = None -> video_info (session w) = None ->
    download_filename (session w) = Some (sanitized (yt_title yt) ++ ext) ->
    download_mime (session w) = Some mime ->
    transferred (trace w) = true ->
    Outcome resolve url t query ext mime w
| out_ready yt l s buffer :
    resolve url = Ok yt -> yt_streams yt = Ok l -> query l = Some s ->
    was_drawn info_placeholder [Markdown (Some (info_text yt))] (page w) ->
    (exists w0, snd (Pytube.stream_to_buffer progress_callback complete_callback
                                             s [] w0) = Ok buffer) ->
    download_error (session w) = None ->
    download_data (session w) = Some buffer ->
    video_info (session w) = Some (info_text yt) ->
    download_filename (session w) = Some (sanitized (yt_title yt) ++ ext) ->
    download_mime (session w) = Some mime ->
    transferred (trace w) = true ->
    info_slot (page w) = [Markdown (Some (info_text yt))] ->
    Outcome resolve url t query ext mime w.

(** A spinner is among the elements. *)
Definition has_spinner (l : list Element) : bool :=
  existsb (fun e => match e with Spinner _ => true | _ => false end) l.

(** The calls an execution made into the resolver, in order. *)
Definition calls (r : World * Exc unit) : list Call := List.map ev_call (trace (fst r)).

(* ---------------------------------------------------------------- *)
(** ** Strings *)

Lemma char_eqb_refl (c : char) : char_eqb c c = true.
Proof. apply N.eqb_refl. Qed.

Lemma startswith_app (p s : str) : startswith (p ++ s) p = true.
Proof.
  induction p as [|c p IH]; simpl.
  - reflexivity.
  - now rewrite char_eqb_refl, IH.
Qed.

Lemma endswith_app (s p : str) : endswith (s ++ p) p = true.
Proof. unfold endswith. rewrite rev_app_distr. apply startswith_app. Qed.

Lemma nonempty_app_r {A} (a b : list A) : nonempty b = true -> nonempty (a ++ b) = true.
Proof. destruct a; simpl; auto. Qed.

(* ---------------------------------------------------------------- *)
(** ** The filename rule (line 102) *)

Lemma rstrip_cons (c : char) (s : str) :
  rstrip (c :: s) =
  if isspace c && negb (nonempty (rstrip s)) then [] else c :: rstrip s.
Proof. reflexivity. Qed.

Lemma rstrip_idem (s : str) : rstrip (rstrip s) = rstrip s.
Proof.
  induction s as [|c s IH].
  - reflexivity.
  - rewrite rstrip_cons.
    destruct (isspace c && negb (nonempty (rstrip s))) eqn:E.
    + reflexivity.
    + rewrite rstrip_cons, IH, E. reflexivity.
Qed.

(** What [rstrip] keeps, the string already had. *)
Lemma rstrip_Forall (P : char -> Prop) (s : str) : Forall P s -> Forall P (rstrip s).
Proof.
  induction 1 as [|c s Hc Hs IH].
  - constructor.
  - rewrite rstrip_cons.
    destruct (isspace c && negb (nonempty (rstrip s))); constructor; assumption.
Qed.

Lemma filter_all {A} (f : A -> bool) (l : list A) :
  Forall (fun x => f x = true) l -> filter f l = l.
Proof.
  induction 1 as [|x l Hx Hl IH]; simpl.
  - reflexivity.
  - now rewrite Hx, IH.
Qed.

Lemma filter_Forall {A} (f : A -> bool) (l : list A) :
  Forall (fun x => f x = true) (filter f l).
Proof.
  induction l as [|x l IH]; simpl.
  - constructor.
  - destruct (f x) eqn:E; [constructor|]; assumption.
Qed.

(** C5. Sanitising a title twice gives what sanitising it once gives: the
    rule of line 102 (keep alphanumerics, space, period, underscore and
    hyphen, then strip trailing whitespace) is idempotent on every
    string. *)
Theorem sanitized_idempotent (title : str) :
  sanitized (sanitized title) = sanitized title.
Proof.
  unfold sanitized.
  set (keep := fun c => isalnum c || char_in c [ch " "; ch "."; ch "_"; ch "-"]).
  rewrite (@filter_all _ keep (rstrip (filter keep title))).
  - apply rstrip_idem.
  - apply rstrip_Forall, filter_Forall.
Qed.


(* ---------------------------------------------------------------- *)
(** ** The progress callback (lines 9-15) *)

Lemma true_div_nonzero (a b : Z) :
  b <> 0%Z -> true_div a b = Ok (fl (inject_Z a / inject_Z b)).
Proof.
  intros H. unfold true_div.
  destruct (Z.eqb_spec b 0); [contradiction | reflexivity].
Qed.

Lemma ratio_in_unit (d t : Z) :
  (0 < t)%Z -> (0 <= d <= t)%Z -> 0 <= inject_Z d / inject_Z t <= 1.
Proof.
  intros Ht [Hd Hdt].
  rewrite Zlt_Qlt in Ht. rewrite Zle_Qle in Hd, Hdt.
  split.
  - apply Qle_shift_div_l; [exact Ht|].
    rewrite Qmult_0_l. exact Hd.
  - apply Qle_shift_div_r; [exact Ht|].
    rewrite Qmult_1_l. exact Hdt.
Qed.

(** With a size that is not zero, the callback stores the rounded
    percentage and returns. *)
Lemma progress_callback_nonzero
      (stream : Stream) (chunk : bytes) (bytes_remaining : Z) (w : World) :
  filesize stream <> 0%Z ->
  progress_callback stream chunk bytes_remaining w
  = (mkWorld (set_download_progress
                (fl (fl (inject_Z (filesize stream - bytes_remaining)
                         / inject_Z (filesize stream)) * 100))
                (session w))
             (page w) (trace w),
     Ok tt).
Proof.
  intros H. unfold progress_callback, bind, lift_exc.
  rewrite true_div_nonzero by exact H. reflexivity.
Qed.

Section Rounding.

(** Rounding to nearest is monotone and leaves 0, 1 and 100, which are
    floats, alone. *)
Hypothesis fl_monotone : forall x y : Q, x <= y -> fl x <= fl y.
Hypothesis fl_0 : fl 0 == 0.
Hypothesis fl_1 : fl 1 == 1.
Hypothesis fl_100 : fl 100 == 100.

Lemma fl_between (lo hi : Q) (x : Q) :
  fl lo == lo -> fl hi == hi -> lo <= x <= hi -> lo <= fl x <= hi.
Proof.
  intros Hlo Hhi [H1 H2]. split.
  - rewrite <- Hlo. now apply fl_monotone.
  - rewrite <- Hhi. now apply fl_monotone.
Qed.

(** Line 13, on floats: the percentage of [total - remaining] in [total]. *)
Lemma percentage_in_range (total remaining : Z) :
  (0 < total)%Z -> (0 <= remaining <= total)%Z ->
  0 <= fl (fl (inject_Z (total - remaining) / inject_Z total) * 100) <= 100.
Proof.
  intros Hpos Hrem.
  set (ratio := fl (inject_Z (total - remaining) / inject_Z total)).
  assert (Hr : 0 <= ratio <= 1).
  { apply fl_between; [exact fl_0 | exact fl_1 |].
    apply ratio_in_unit; lia. }
  apply fl_between; [exact fl_0 | exact fl_100 |].
  destruct Hr as [Hr0 Hr1]. split.
  - apply Qmult_le_0_compat; [exact Hr0 | discriminate].
  - setoid_replace 100 with (1 * 100) at 2 by reflexivity.
    apply Qmult_le_compat_r; [exact Hr1 | discriminate].
Qed.

(** C4, amended. A progress notification for a stream of positive size,
    with [0 <= bytes_remaining <= filesize], does not raise and stores a
    percentage between 0 and 100. *)
Theorem progress_percent_in_range
        (stream : Stream) (chunk : bytes) (bytes_remaining : Z) (w : World) :
  (0 < filesize stream)%Z ->
  (0 <= bytes_remaining <= filesize stream)%Z ->
  exists percentage : Q,
    progress_callback stream chunk bytes_remaining w
    = (mkWorld (set_download_progress percentage (session w)) (page w) (trace w),
       Ok tt)
    /\ 0 <= percentage <= 100.
Proof.
  intros Hpos Hrem.
  eexists. split.
  - apply progress_callback_nonzero. lia.
  - apply percentage_in_range; assumption.
Qed.

(** X3. A transfer as the resolver performs it: the chunks are not empty and do
    not add up to more than what remains of the announced size.  Then no
    notification divides by zero, the chunks all reach the buffer, and the
    progress stays between 0 and 100. *)
Lemma transfer_progress_in_range (s : Stream) (cs : list bytes) :
  forall (remaining : Z) (buffer : bytes) (w : World),
    Forall (fun chunk => chunk <> []) cs ->
    (Z.of_nat (List.length (List.concat cs)) <= remaining <= filesize s)%Z ->
    0 <= download_progress (session w) <= 100 ->
    exists p,
      Pytube.deliver progress_callback s cs remaining buffer w
      = (mkWorld (set_download_progress p (session w)) (page w) (trace w),
         Ok (buffer ++ List.concat cs))
      /\ 0 <= p <= 100.
Proof.
  induction cs as [|chunk cs IH]; intros remaining buffer w Hne Hsize Hp.
  - exists (download_progress (session w)). split; [| exact Hp].
    cbn [Pytube.deliver List.concat ret]. rewrite app_nil_r.
    destruct w as [[] ? ?]. reflexivity.
  - inversion Hne as [|? ? Hchunk Hrest]; subst.
    cbn [List.concat] in Hsize. rewrite length_app, Nat2Z.inj_add in Hsize.
    assert (Hlen : (0 < Z.of_nat (List.length chunk))%Z)
      by (destruct chunk; [contradiction | cbn [List.length]; lia]).
    cbn [Pytube.deliver]. unfold bind at 1.
    rewrite progress_callback_nonzero by lia.
    match goal with
    | |- context [Pytube.deliver _ _ _ ?r ?b ?w'] =>
        destruct (IH r b w' Hrest) as (p & E & Hrange);
        [ lia
        | cbn [session download_progress set_download_progress];
          apply percentage_in_range; lia
        | rewrite E ]
    end.
    exists p. split; [| exact Hrange].
    cbn [List.concat]. rewrite app_assoc. reflexivity.
Qed.

End Rounding.


(* ---------------------------------------------------------------- *)
(** ** What a transfer can change *)

Lemma world_eta (w : World) :
  w = mkWorld (set_download_progress (download_progress (session w)) (session w))
              (page w) (trace w).
Proof. destruct w as [[] ? ?]. reflexivity. Qed.

Lemma progress_callback_frame (s : Stream) (chunk : bytes) (remaining : Z) (w : World) :
  exists p r,
    progress_callback s chunk remaining w
    = (mkWorld (set_download_progress p (session w)) (page w) (trace w), r).
Proof.
  unfold progress_callback, bind, lift_exc.
  destruct (true_div _ _) as [ratio|e].
  - exists (fl (ratio * 100)), (Ok tt). reflexivity.
  - exists (download_progress (session w)), (Raise e).
    cbn [raise]. now rewrite <- world_eta.
Qed.

Lemma deliver_frame (s : Stream) (cs : list bytes) :
  forall (remaining : Z) (buffer : bytes) (w : World),
  exists p r,
    Pytube.deliver progress_callback s cs remaining buffer w
    = (mkWorld (set_download_progress p (session w)) (page w) (trace w), r).
Proof.
  induction cs as [|chunk cs IH]; intros remaining buffer w.
  - exists (download_progress (session w)), (Ok buffer).
    cbn [Pytube.deliver ret]. now rewrite <- world_eta.
  - cbn [Pytube.deliver]. unfold bind at 1.
    match goal with
    | |- context [progress_callback ?a ?b ?c ?d] =>
        destruct (progress_callback_frame a b c d) as (q & r0 & E0); rewrite E0
    end.
    destruct r0 as [[]|e].
    + match goal with
      | |- context [Pytube.deliver _ _ _ ?b ?u ?w'] =>
          destruct (IH b u w') as (p & r & E); rewrite E
      end.
      exists p, r. reflexivity.
    + exists q, (Raise e). reflexivity.
Qed.

Lemma stream_to_buffer_frame (s : Stream) (buffer : bytes) (w : World) :
  exists p c r,
    Pytube.stream_to_buffer progress_callback complete_callback s buffer w
    = (mkWorld (set_download_complete c (set_download_progress p (session w)))
               (page w)
               (trace w ++ [mkEvent (CallStreamToBuffer s) (session w)]),
       r).
Proof.
  unfold Pytube.stream_to_buffer, bind at 1, record. unfold bind at 1.
  match goal with
  | |- context [Pytube.deliver _ _ ?cs ?b ?u ?w'] =>
      destruct (deliver_frame s cs b u w') as (p & r & E); rewrite E
  end.
  cbn [session page trace].
  destruct r as [buf|e].
  - destruct (ending s).
    + exists p, true, (Ok buf). reflexivity.
    + exists p, (download_complete (session w)), (Ok buf).
      destruct w as [[] ? ?]. reflexivity.
    + exists p, (download_complete (session w)), (Raise e).
      destruct w as [[] ? ?]. reflexivity.
  - exists p, (download_complete (session w)), (Raise e).
    destruct w as [[] ? ?]. reflexivity.
Qed.


(* ---------------------------------------------------------------- *)
(** ** What was drawn stays drawn *)

Lemma was_drawn_here (p : Placeholder) (v : list Element) (u : Page) :
  was_drawn p v (set_slot p v u).
Proof.
  unfold was_drawn. destruct p; cbn [set_slot drawn];
    apply in_or_app; right; left; reflexivity.
Qed.

Lemma was_drawn_later (p q : Placeholder) (v v' : list Element) (u : Page) :
  was_drawn p v u -> was_drawn p v (set_slot q v' u).
Proof.
  unfold was_drawn. intros H. destruct q; cbn [set_slot drawn];
    apply in_or_app; left; exact H.
Qed.

Ltac drawn_before :=
  repeat first [apply was_drawn_here | apply was_drawn_later].

(* ---------------------------------------------------------------- *)
(** ** How an attempt ends *)

Ltac run :=
  cbv beta iota zeta delta
      [bind ret raise gets assign draw record with_spinner lift_exc try_except
       read_download_type pick_stream on_exception
       session page trace fst snd
       download_progress download_complete video_info download_error
       download_data download_filename download_mime download_type
       set_download_progress set_download_complete set_video_info
       set_download_error set_download_data set_download_filename
       set_download_mime set_download_type].

Ltac transfer :=
  match goal with
  | |- context [Pytube.stream_to_buffer _ _ ?s ?b ?w] =>
      destruct (stream_to_buffer_frame s b w) as (p & c & r & E); rewrite E
  end.

Ltac done_with k :=
  eexists; split; [reflexivity |];
  split; [reflexivity |];
  split; [eexists; reflexivity |];
  split; [reflexivity | k].

Ltac info_was_drawn := solve [cbn [page]; drawn_before].

Ltac dispatch_mp4 :=
  run; change (str_eqb (lit "mp4") (lit "mp4")) with true; cbv iota beta; run.

Ltac dispatch_mp3 :=
  run; change (str_eqb (lit "mp3") (lit "mp4")) with false; cbv iota beta; run;
  change (str_eqb (lit "mp3") (lit "mp3")) with true; cbv iota beta; run.

(** The attempt never lets an exception out; its first call into the
    resolver sees the state the reset left; it leaves the button slot
    empty; and it ends in one of the five ways of [Outcome]. *)
Lemma attempt_outcome (resolve : Resolver) (url t : str) query ext mime
      (st : Session) (pg : Page) :
  Kind t query ext mime ->
  download_type st = Some t ->
  exists w',
    download_attempt resolve url (mkWorld st pg []) = (w', Ok tt)
    /\ download_type (session w') = Some t
    /\ (exists rest,
          trace w'
          = mkEvent (CallYouTube url)
                    (mkSession 0 false None None None None None (Some t)) :: rest)
    /\ button_slot (page w') = []
    /\ Outcome resolve url t query ext mime w'.
Proof.
  intros K Ht. destruct st as [pr co vi er da fn mi ty].
  cbn [download_type] in Ht. subst ty.
  unfold download_attempt, reset_state, try_body.
  destruct (resolve url) as [yt|e] eqn:R.
  2: { run. done_with ltac:(eapply out_unresolved; eauto). }
  run.
  destruct (yt_streams yt) as [l|e] eqn:L.
  - destruct (query l) as [s|] eqn:Q.
    + destruct K; [dispatch_mp4 | dispatch_mp3].
      * rewrite Q. run. transfer. run. destruct r as [buffer|e].
        -- destruct c;
             done_with ltac:(eapply out_ready; eauto;
                             first [info_was_drawn | eexists; rewrite E; reflexivity]).
        -- done_with ltac:(eapply out_failed; eauto;
                           first [info_was_drawn | eexists; rewrite E; reflexivity]).
      * rewrite Q. run. transfer. run. destruct r as [buffer|e].
        -- destruct c;
             done_with ltac:(eapply out_ready; eauto;
                             first [info_was_drawn | eexists; rewrite E; reflexivity]).
        -- done_with ltac:(eapply out_failed; eauto;
                           first [info_was_drawn | eexists; rewrite E; reflexivity]).
    + destruct K; [dispatch_mp4 | dispatch_mp3]; rewrite Q; run;
        done_with ltac:(eapply out_no_stream; eauto; info_was_drawn).
  - destruct K; [dispatch_mp4 | dispatch_mp3];
      done_with ltac:(eapply out_unlisted; eauto; info_was_drawn).
Qed.


(* ---------------------------------------------------------------- *)
(** ** One execution of the script *)

(** Rendering changes the page only.  The button appears when the data and
    the name are both truthy; after an attempt the info slot is left
    alone. *)
Lemma render_frame (download_triggered : bool) (w : World) :
  exists pg,
    render download_triggered w = (mkWorld (session w) pg (trace w), Ok tt)
    /\ (button_slot (page w) = [] ->
        shows_download_button pg
        = truthy (download_data (session w)) && truthy (download_filename (session w)))
    /\ (download_triggered = true -> info_slot pg = info_slot (page w))
    /\ (forall p v, was_drawn p v (page w) -> was_drawn p v pg).
Proof.
  destruct w as [st pg tr]. unfold render.
  cbv beta iota zeta delta [bind ret gets draw]. cbn [session page trace].
  destruct (truthy (download_data st) && truthy (download_filename st));
    destruct download_triggered; cbn [negb]; rewrite ?andb_false_r; cbn [andb];
    repeat match goal with
           | |- context [if ?b then _ else _] => destruct b
           end;
    eexists; (split; [reflexivity |]);
    (split; [intros Hb; unfold shows_download_button; cbn [page] in Hb |- *;
             cbn [set_slot button_slot existsb orb]; try rewrite Hb; reflexivity
            |]);
    (split; [intros Ht; try discriminate; reflexivity
            | intros p v Hd; cbn [page] in Hd; drawn_before; exact Hd]).
Qed.

(** With a URL and a button pressed, the execution is one attempt, of the
    kind of the button, followed by the rendering. *)
Lemma run_script_triggered resolve url mp4_pressed mp3_pressed store :
  nonempty url = true -> mp4_pressed || mp3_pressed = true ->
  run_script resolve url mp4_pressed mp3_pressed store
  = (download_attempt resolve url ;; render true)
      (mkWorld (set_download_type
                  (Some (if mp3_pressed then lit "mp3" else lit "mp4"))
                  (init_session_state store))
               blank_page []).
Proof.
  intros Hurl Hpressed. unfold run_script, script, button. rewrite Hurl.
  destruct mp4_pressed, mp3_pressed; try discriminate; reflexivity.
Qed.

(** Without a URL, or without a button pressed, the session state stays as
    it was and the resolver is not called. *)
Lemma run_script_idle resolve url mp4_pressed mp3_pressed store :
  nonempty url = false \/ mp4_pressed || mp3_pressed = false ->
  exists pg0,
    run_script resolve url mp4_pressed mp3_pressed store
    = render false (mkWorld (init_session_state store) pg0 [])
    /\ button_slot pg0 = [].
Proof.
  intros H. unfold run_script, script, button.
  destruct H as [H|H].
  - rewrite H. destruct mp4_pressed, mp3_pressed; eexists; split; reflexivity.
  - destruct mp4_pressed, mp3_pressed; try discriminate.
    eexists; split; reflexivity.
Qed.

(** What a triggered execution leaves behind. *)
Lemma run_script_outcome resolve url mp4_pressed mp3_pressed store query ext mime :
  nonempty url = true -> mp4_pressed || mp3_pressed = true ->
  Kind (if mp3_pressed then lit "mp3" else lit "mp4") query ext mime ->
  let r := run_script resolve url mp4_pressed mp3_pressed store in
  exists w' pg,
    r = (mkWorld (session w') pg (trace w'), Ok tt)
    /\ info_slot pg = info_slot (page w')
    /\ (forall p v, was_drawn p v (page w') -> was_drawn p v pg)
    /\ shows_download_button pg
       = truthy (download_data (session w')) && truthy (download_filename (session w'))
    /\ (exists rest,
          trace w'
          = mkEvent (CallYouTube url)
                    (mkSession 0 false None None None None None
                               (Some (if mp3_pressed then lit "mp3" else lit "mp4")))
              :: rest)
    /\ Outcome resolve url (if mp3_pressed then lit "mp3" else lit "mp4")
               query ext mime w'.
Proof.
  intros Hurl Hpressed K r. subst r.
  rewrite run_script_triggered by assumption.
  match goal with
  | |- context [(_ ;; _) (mkWorld ?st ?pg [])] =>
      destruct (attempt_outcome resolve url st pg K eq_refl)
        as (w' & A & _ & T & B & O);
      assert (E : (download_attempt resolve url ;; render true) (mkWorld st pg [])
                  = render true w')
        by (unfold bind at 1; rewrite A; reflexivity);
      rewrite E
  end.
  destruct (render_frame true w') as (pg & F & Hbutton & Hinfo & Hdrawn).
  exists w', pg. rewrite F. auto 7.
Qed.


(** Brings the outcome of the triggered execution in the goal into the
    context, for the kind of the pressed button. *)
Ltac with_outcome Hurl Hpressed :=
  match goal with
  | |- context [run_script ?resolve ?url ?b4 true ?store] =>
      destruct (@run_script_outcome resolve url b4 true store _ _ _
                                    Hurl Hpressed kind_mp3)
        as (w' & pg & Er & Hinfo & Hdrawn & Hbutton & (rest & Htrace) & O);
      cbv zeta; rewrite Er; unfold after; cbn [fst snd session page trace]
  | |- context [run_script ?resolve ?url ?b4 false ?store] =>
      destruct (@run_script_outcome resolve url b4 false store _ _ _
                                    Hurl Hpressed kind_mp4)
        as (w' & pg & Er & Hinfo & Hdrawn & Hbutton & (rest & Htrace) & O);
      cbv zeta; rewrite Er; unfold after; cbn [fst snd session page trace]
  end.

(* ---------------------------------------------------------------- *)
(** ** Properties of an attempt *)

(** C3. After an attempt on a non-empty URL, exactly one of
    [download_data] and [download_error] is set: the data and no error,
    or an error and no data.  The attempt always completes. *)
Theorem exactly_one_of_data_and_error
        resolve url mp4_pressed mp3_pressed store :
  nonempty url = true -> mp4_pressed || mp3_pressed = true ->
  let r := run_script resolve url mp4_pressed mp3_pressed store in
  snd r = Ok tt
  /\ ((download_data (after r) <> None /\ download_error (after r) = None)
      \/ (download_data (after r) = None /\ download_error (after r) <> None)).
Proof.
  intros Hurl Hpressed.
  destruct mp3_pressed; with_outcome Hurl Hpressed;
    (split; [reflexivity |]);
    destruct O;
    repeat match goal with
           | H : download_data _ = _ |- _ => rewrite H
           | H : download_error _ = _ |- _ => rewrite H
           end;
    solve [left; split; congruence | right; split; congruence].
Qed.


(** C2, amended. After an attempt, [download_filename] and [download_mime]
    are set together; they are set whenever [download_data] is; and they
    are set exactly when the attempt reached stream selection, that is,
    when the resolver returned the video and its stream list, whether or
    not a stream was then found and transferred. *)
Theorem filename_and_mime_set_at_stream_selection
        resolve url mp4_pressed mp3_pressed store :
  nonempty url = true -> mp4_pressed || mp3_pressed = true ->
  let st := after (run_script resolve url mp4_pressed mp3_pressed store) in
  (download_filename st <> None <-> download_mime st <> None)
  /\ (download_data st <> None ->
      download_filename st <> None /\ download_mime st <> None)
  /\ (download_filename st <> None <->
      exists yt l, resolve url = Ok yt /\ yt_streams yt = Ok l).
Proof.
  intros Hurl Hpressed.
  destruct mp3_pressed; with_outcome Hurl Hpressed;
    destruct O;
    repeat match goal with
           | H : download_data _ = _ |- _ => rewrite H
           | H : download_filename _ = _ |- _ => rewrite H
           | H : download_mime _ = _ |- _ => rewrite H
           end;
    (split; [split; congruence |]);
    (split; [intros; split; congruence |]);
    (split;
     [ intros Hname; try congruence; eauto
     | intros (yt' & l' & Hr & Hl); congruence ]).
Qed.

(** C9. Whenever an attempt leaves a filename and a MIME type: for the
    video kind the name ends with .mp4 and the type is video/mp4; for the
    audio kind the name ends with .mp3 and the type is audio/mp3, whatever
    stream the resolver offered. *)
Theorem extension_and_mime_fixed_by_kind
        resolve url mp4_pressed mp3_pressed store name mime :
  nonempty url = true -> mp4_pressed || mp3_pressed = true ->
  let st := after (run_script resolve url mp4_pressed mp3_pressed store) in
  download_filename st = Some name -> download_mime st = Some mime ->
  if mp3_pressed
  then endswith name (lit ".mp3") = true /\ mime = lit "audio/mp3"
  else endswith name (lit ".mp4") = true /\ mime = lit "video/mp4".
Proof.
  intros Hurl Hpressed.
  destruct mp3_pressed; with_outcome Hurl Hpressed;
    intros Hname Hmime; destruct O;
    try congruence;
    match goal with
    | H1 : download_filename _ = Some (_ ++ _),
      H2 : download_mime _ = Some _ |- _ =>
        rewrite H1 in Hname; rewrite H2 in Hmime;
        injection Hname as <-; injection Hmime as <-
    end;
    (split; [apply endswith_app | reflexivity]).
Qed.

(** C8. No exception leaves the attempt.  When the resolver raises, for
    the video, for its stream list or during the transfer of the selected
    stream, [download_error] is the message prefixed by
    "An error occurred: ", and [download_data] and [video_info] are
    unset. *)
Theorem exceptions_caught_and_reported
        resolve url mp4_pressed mp3_pressed store :
  nonempty url = true -> mp4_pressed || mp3_pressed = true ->
  let r := run_script resolve url mp4_pressed mp3_pressed store in
  let reported e :=
    download_error (after r) = Some (lit "An error occurred: " ++ e)
    /\ download_data (after r) = None
    /\ video_info (after r) = None in
  snd r = Ok tt
  /\ (forall e, resolve url = Raise e -> reported e)
  /\ (forall yt e, resolve url = Ok yt -> yt_streams yt = Raise e -> reported e)
  /\ (forall yt l s e,
        resolve url = Ok yt -> yt_streams yt = Ok l ->
        (if mp3_pressed then best_audio l else best_progressive_mp4 l) = Some s ->
        (forall w, snd (Pytube.stream_to_buffer progress_callback complete_callback
                                                s [] w) = Raise e) ->
        reported e).
Proof.
  intros Hurl Hpressed.
  destruct mp3_pressed; with_outcome Hurl Hpressed;
    (split; [reflexivity |]);
    (split; [intros e' Hr | split; [intros yt' e' Hr Hl | intros yt' l' s' e' Hr Hl Hq Hfail]]);
    destruct O;
    try congruence;
    repeat match goal with
           | H : resolve url = _, H' : resolve url = _ |- _ =>
               rewrite H in H'; injection H' as ->
           | H : yt_streams ?y = _, H' : yt_streams ?y = _ |- _ =>
               rewrite H in H'; injection H' as ->
           | H : ?q ?l = Some _, H' : ?q ?l = Some _ |- _ =>
               rewrite H in H'; injection H' as ->
           | H : exists w0, snd (Pytube.stream_to_buffer _ _ ?s [] w0) = _,
             H' : forall w, snd (Pytube.stream_to_buffer _ _ ?s [] w) = _ |- _ =>
               destruct H as [w0 H]; rewrite H' in H;
               first [discriminate H | injection H as <-]
           end;
    try congruence;
    auto.
Qed.


(* ---------------------------------------------------------------- *)
(** ** Stream selection *)

Lemma best_audio_none (l : list Stream) :
  Pytube.filter_only_audio l = [] -> best_audio l = None.
Proof. intros H. unfold best_audio. rewrite H. reflexivity. Qed.

Lemma best_progressive_mp4_single (s : Stream) :
  is_progressive s = true -> subtype s = lit "mp4" -> resolution s <> None ->
  best_progressive_mp4 [s] = Some s.
Proof.
  intros Hp Hs Hr.
  unfold best_progressive_mp4, Pytube.filter_progressive, Pytube.order_by.
  cbn [filter]. rewrite Hp, Hs.
  change (true && str_eqb (lit "mp4") (lit "mp4")) with true. cbv iota.
  cbn [filter]. unfold Pytube.has_attr.
  destruct (resolution s); [reflexivity | contradiction].
Qed.

(** C1, amended. An audio attempt on a URL that resolves to a stream list
    with no audio-only stream sets [download_error] to
    "No suitable MP3 stream found.", leaves [download_data] unset and
    never calls [stream_to_buffer]. *)
Theorem no_audio_stream_reported
        resolve url mp4_pressed store yt l :
  nonempty url = true ->
  resolve url = Ok yt -> yt_streams yt = Ok l ->
  Pytube.filter_only_audio l = [] ->
  let r := run_script resolve url mp4_pressed true store in
  download_error (after r) = Some (lit "No suitable MP3 stream found.")
  /\ download_data (after r) = None
  /\ transferred (trace (fst r)) = false.
Proof.
  intros Hurl Hr Hl Hnone.
  assert (Hpressed : mp4_pressed || true = true) by apply orb_true_r.
  apply best_audio_none in Hnone.
  with_outcome Hurl Hpressed.
  destruct O;
    repeat match goal with
           | H : resolve url = _, H' : resolve url = _ |- _ =>
               rewrite H in H'; first [discriminate H' | injection H' as ->]
           | H : yt_streams ?y = _, H' : yt_streams ?y = _ |- _ =>
               rewrite H in H'; first [discriminate H' | injection H' as ->]
           end;
    try congruence.
  auto.
Qed.

(** C6. Scenario A: a video attempt on a URL resolving to the title
    "Test: Video!", 125 seconds and one progressive mp4 stream leaves the
    filename "Test Video.mp4", and the info text it puts on the page
    (line 105) contains "2m 5s".  When the transfer succeeds that text is
    still in the info slot, and in [video_info], at the end. *)
Theorem scenario_A_filename_and_info
        resolve url store (s : Stream) :
  nonempty url = true ->
  resolve url = Ok (mkVideo (lit "Test: Video!") 125 (Ok [s])) ->
  is_progressive s = true -> subtype s = lit "mp4" -> resolution s <> None ->
  let r := run_script resolve url true false store in
  download_filename (after r) = Some (lit "Test Video.mp4")
  /\ exists text,
      was_drawn info_placeholder [Markdown (Some text)] (page (fst r))
      /\ contains text (lit "2m 5s") = true
      /\ (download_error (after r) = None ->
          info_slot (page (fst r)) = [Markdown (Some text)]
          /\ video_info (after r) = Some text).
Proof.
  intros Hurl Hr Hp Hs Hres.
  assert (Hpressed : true || false = true) by reflexivity.
  pose proof (best_progressive_mp4_single s Hp Hs Hres) as Hq.
  with_outcome Hurl Hpressed.
  destruct O as [e Hr' | yt e Hr' Hl | yt l Hr' Hl | yt l s' e Hr' Hl | yt l s' buffer Hr' Hl];
    rewrite Hr in Hr'; try discriminate Hr';
    injection Hr' as <-; cbn [yt_streams yt_title] in *;
    try discriminate Hl; injection Hl as <-;
    try congruence;
    (split; [assumption |]);
    exists (info_text (mkVideo (lit "Test: Video!") 125 (Ok [s])));
    (split; [apply Hdrawn; assumption |]);
    (split; [reflexivity |]).
  - congruence.
  - intros _. rewrite Hinfo. split; assumption.
Qed.


(* ---------------------------------------------------------------- *)
(** ** The reset at the start of an attempt *)

(** Of the state before it, an attempt keeps the kind only. *)
Lemma attempt_forgets resolve url (st st' : Session) (pg : Page) :
  download_type st = download_type st' ->
  download_attempt resolve url (mkWorld st pg [])
  = download_attempt resolve url (mkWorld st' pg []).
Proof.
  intros H. destruct st, st'. cbn [download_type] in H. subst.
  unfold download_attempt, reset_state. run. reflexivity.
Qed.

(** C7. Whatever the session state was, the first call an attempt makes
    into the resolver, [YouTube(url)], sees [download_progress] at 0,
    [download_complete] false and the error, data, info, filename and MIME
    type cleared; and nothing of the execution depends on the earlier
    state. *)
Theorem attempt_starts_from_reset
        resolve url mp4_pressed mp3_pressed store :
  nonempty url = true -> mp4_pressed || mp3_pressed = true ->
  let r := run_script resolve url mp4_pressed mp3_pressed store in
  (exists st0 rest,
      trace (fst r) = mkEvent (CallYouTube url) st0 :: rest
      /\ download_progress st0 = 0
      /\ download_complete st0 = false
      /\ download_error st0 = None
      /\ download_data st0 = None
      /\ video_info st0 = None
      /\ download_filename st0 = None
      /\ download_mime st0 = None)
  /\ (forall store', run_script resolve url mp4_pressed mp3_pressed store' = r).
Proof.
  intros Hurl Hpressed r. split.
  - subst r. destruct mp3_pressed; with_outcome Hurl Hpressed;
      do 2 eexists; (split; [exact Htrace |]); repeat split.
  - intros store'. subst r.
    rewrite !run_script_triggered by assumption.
    unfold bind at 1 2.
    rewrite (@attempt_forgets resolve url
               (set_download_type (Some (if mp3_pressed then lit "mp3" else lit "mp4"))
                                  (init_session_state store'))
               (set_download_type (Some (if mp3_pressed then lit "mp3" else lit "mp4"))
                                  (init_session_state store))
               blank_page) by reflexivity.
    reflexivity.
Qed.

(* ---------------------------------------------------------------- *)
(** ** Reachable states and the download button *)

(** In a reachable state, data comes with a non-empty name and a MIME
    type. *)
Lemma run_script_keeps_names resolve url mp4_pressed mp3_pressed store :
  (forall st, store = Some st ->
              download_data st <> None ->
              truthy (download_filename st) = true /\ download_mime st <> None) ->
  let st' := after (run_script resolve url mp4_pressed mp3_pressed store) in
  download_data st' <> None ->
  truthy (download_filename st') = true /\ download_mime st' <> None.
Proof.
  intros Hstore.
  destruct (nonempty url) eqn:Hurl;
    [destruct (mp4_pressed || mp3_pressed) eqn:Hpressed |].
  - destruct mp3_pressed; with_outcome Hurl Hpressed;
      destruct O; try congruence;
      intros _;
      repeat match goal with
             | H : download_filename _ = _ |- _ => rewrite H
             | H : download_mime _ = _ |- _ => rewrite H
             end;
      (split; [apply nonempty_app_r; reflexivity | discriminate]).
  - destruct (@run_script_idle resolve url mp4_pressed mp3_pressed store
                               (or_intror Hpressed)) as (pg0 & E & _).
    cbv zeta. rewrite E.
    destruct (render_frame false (mkWorld (init_session_state store) pg0 []))
      as (pg & F & _). rewrite F. unfold after. cbn [fst session].
    destruct store as [st|]; [apply Hstore; reflexivity | cbn; congruence].
  - destruct (@run_script_idle resolve url mp4_pressed mp3_pressed store
                               (or_introl Hurl)) as (pg0 & E & _).
    cbv zeta. rewrite E.
    destruct (render_frame false (mkWorld (init_session_state store) pg0 []))
      as (pg & F & _). rewrite F. unfold after. cbn [fst session].
    destruct store as [st|]; [apply Hstore; reflexivity | cbn; congruence].
Qed.

Lemma reachable_names (st : Session) :
  reachable st ->
  download_data st <> None ->
  truthy (download_filename st) = true /\ download_mime st <> None.
Proof.
  induction 1 as [resolve url b4 b3 | st resolve url b4 b3 Hst IH].
  - apply run_script_keeps_names. intros st0 H0. discriminate H0.
  - apply run_script_keeps_names. intros st0 H0. injection H0 as <-. exact IH.
Qed.

Lemma startable_after resolve url mp4_pressed mp3_pressed store :
  startable store ->
  reachable (after (run_script resolve url mp4_pressed mp3_pressed store)).
Proof.
  destruct store as [st|]; cbn [startable]; intros H.
  - now apply reachable_next.
  - apply reachable_first.
Qed.

(** The button is drawn when the data and the name are both truthy. *)
Lemma run_script_button resolve url mp4_pressed mp3_pressed store :
  let r := run_script resolve url mp4_pressed mp3_pressed store in
  shows_download_button (page (fst r))
  = truthy (download_data (after r)) && truthy (download_filename (after r)).
Proof.
  destruct (nonempty url) eqn:Hurl;
    [destruct (mp4_pressed || mp3_pressed) eqn:Hpressed |].
  - destruct mp3_pressed; with_outcome Hurl Hpressed; exact Hbutton.
  - destruct (@run_script_idle resolve url mp4_pressed mp3_pressed store
                               (or_intror Hpressed)) as (pg0 & E & Hb).
    cbv zeta. rewrite E.
    destruct (render_frame false (mkWorld (init_session_state store) pg0 []))
      as (pg & F & Hbutton & _). rewrite F. unfold after. cbn [fst session page].
    apply Hbutton. exact Hb.
  - destruct (@run_script_idle resolve url mp4_pressed mp3_pressed store
                               (or_introl Hurl)) as (pg0 & E & Hb).
    cbv zeta. rewrite E.
    destruct (render_frame false (mkWorld (init_session_state store) pg0 []))
      as (pg & F & Hbutton & _). rewrite F. unfold after. cbn [fst session page].
    apply Hbutton. exact Hb.
Qed.

(** C10, amended. In every reachable session state, [download_data] set
    implies [download_filename] and [download_mime] set; and at the end of
    every execution that started from such a state, the download button is
    on the page exactly when [download_data] holds at least one byte. *)
Theorem button_shown_for_nonempty_data
        resolve url mp4_pressed mp3_pressed store :
  startable store ->
  let r := run_script resolve url mp4_pressed mp3_pressed store in
  reachable (after r)
  /\ (download_data (after r) <> None ->
      download_filename (after r) <> None /\ download_mime (after r) <> None)
  /\ shows_download_button (page (fst r)) = truthy (download_data (after r)).
Proof.
  intros Hstore r.
  assert (Hreach : reachable (after r)) by now apply startable_after.
  pose proof (reachable_names Hreach) as Hnames.
  split; [exact Hreach |]. split.
  - intros Hdata. destruct (Hnames Hdata) as [Hname Hmime].
    split; [| exact Hmime].
    destruct (download_filename (after r)); [discriminate | discriminate Hname].
  - subst r. rewrite run_script_button.
    destruct (download_data _) as [data|] eqn:Hdata; [| reflexivity].
    destruct (Hnames ltac:(discriminate)) as [Hname _].
    rewrite Hname. apply andb_true_r.
Qed.


(* ---------------------------------------------------------------- *)
(** ** More on the filename rule (line 102) *)

Lemma rstrip_prefix (s : str) :
  exists t, s = rstrip s ++ t /\ Forall (fun c => isspace c = true) t.
Proof.
  induction s as [|c s (t & E & Ht)].
  - exists []. split; [reflexivity | constructor].
  - rewrite rstrip_cons.
    destruct (isspace c) eqn:Hc; cbn [andb].
    + destruct (rstrip s) as [|d r]; cbn [nonempty negb].
      * exists (c :: t). cbn [app] in *. split; [congruence | now constructor].
      * exists t. cbn [app] in *. split; [congruence | exact Ht].
    + exists t. cbn [app] in *. split; [congruence | exact Ht].
Qed.

(** What [rstrip] returns is empty or ends in a character that is not
    whitespace. *)
Lemma rstrip_last (s : str) :
  rstrip s = [] \/ exists r c, rstrip s = r ++ [c] /\ isspace c = false.
Proof.
  induction s as [|c s IH].
  - left. reflexivity.
  - rewrite rstrip_cons.
    destruct (rstrip s) as [|d r] eqn:Hr; cbn [nonempty negb].
    + rewrite andb_true_r. destruct (isspace c) eqn:Hc.
      * left. reflexivity.
      * right. exists [], c. split; [reflexivity | exact Hc].
    + rewrite andb_false_r. right.
      destruct IH as [IH | (r' & c' & E & Hc')]; [discriminate |].
      exists (c :: r'), c'. split; [| exact Hc']. cbn [app]. now rewrite <- E.
Qed.

(** A string that does not end in whitespace is left alone. *)
Lemma rstrip_id (r : str) (c : char) : isspace c = false -> rstrip (r ++ [c]) = r ++ [c].
Proof.
  intros Hc. induction r as [|d r IH].
  - cbn. rewrite Hc. reflexivity.
  - cbn [app]. rewrite rstrip_cons, IH.
    destruct (r ++ [c]) eqn:E; [destruct r; discriminate |].
    cbn [nonempty negb]. now rewrite andb_false_r.
Qed.

(** X6. The sanitized title is made of alphanumerics, spaces, periods,
    underscores and hyphens only, in the order the title has them, and it
    does not end in whitespace. *)
Theorem sanitized_characters (title : str) :
  Forall (fun c => isalnum c || char_in c [ch " "; ch "."; ch "_"; ch "-"] = true)
         (sanitized title)
  /\ (exists dropped,
        filter (fun c => isalnum c || char_in c [ch " "; ch "."; ch "_"; ch "-"]) title
        = sanitized title ++ dropped
        /\ Forall (fun c => isspace c = true) dropped)
  /\ (sanitized title = []
      \/ exists r c, sanitized title = r ++ [c] /\ isspace c = false).
Proof.
  unfold sanitized. split; [| split].
  - apply rstrip_Forall, filter_Forall.
  - apply rstrip_prefix.
  - apply rstrip_last.
Qed.

(** X7. A title that is already clean is its own filename stem: every character
    allowed, and the last one not whitespace. *)
Theorem sanitized_fixes_clean_titles (r : str) (c : char) :
  Forall (fun c => isalnum c || char_in c [ch " "; ch "."; ch "_"; ch "-"] = true)
         (r ++ [c]) ->
  isspace c = false ->
  sanitized (r ++ [c]) = r ++ [c].
Proof.
  intros Hall Hc. unfold sanitized.
  rewrite (filter_all _ Hall). apply rstrip_id. exact Hc.
Qed.

(** A title without a single allowed character sanitizes to the empty
    string. *)
Lemma sanitized_nothing_kept (title : str) :
  Forall (fun c => isalnum c || char_in c [ch " "; ch "."; ch "_"; ch "-"] = false)
         title ->
  sanitized title = [].
Proof.
  intros H. unfold sanitized.
  assert (E : filter (fun c => isalnum c || char_in c [ch " "; ch "."; ch "_"; ch "-"])
                     title = []).
  { induction H as [|c l Hc Hl IH]; cbn [filter]; [reflexivity |].
    now rewrite Hc. }
  rewrite E. reflexivity.
Qed.


(* ---------------------------------------------------------------- *)
(** ** More on the progress callback (lines 9-15) *)

Section RoundedProgress.

Hypothesis fl_monotone : forall x y : Q, x <= y -> fl x <= fl y.

Lemma fl_compat (x y : Q) : x == y -> fl x == fl y.
Proof.
  intros E. apply Qle_antisym; apply fl_monotone; rewrite E; apply Qle_refl.
Qed.


Hypothesis fl_0 : fl 0 == 0.
Hypothesis fl_1 : fl 1 == 1.
Hypothesis fl_100 : fl 100 == 100.

(** X2. At the two ends of a transfer the percentage is exact: 0 when the whole
    file remains, 100 when nothing does. *)
Theorem progress_at_the_ends (stream : Stream) (chunk : bytes) (w : World) :
  (0 < filesize stream)%Z ->
  (exists p,
      progress_callback stream chunk (filesize stream) w
      = (mkWorld (set_download_progress p (session w)) (page w) (trace w), Ok tt)
      /\ p == 0)
  /\ (exists p,
         progress_callback stream chunk 0 w
         = (mkWorld (set_download_progress p (session w)) (page w) (trace w), Ok tt)
         /\ p == 100).
Proof.
  intros Hpos.
  assert (Ht : ~ inject_Z (filesize stream) == 0).
  { intros E. rewrite Zlt_Qlt in Hpos. rewrite E in Hpos.
    exact (Qlt_irrefl _ Hpos). }
  split; eexists; (split; [apply progress_callback_nonzero; lia |]).
  - rewrite Z.sub_diag.
    assert (R : fl (inject_Z 0 / inject_Z (filesize stream)) == 0).
    { rewrite (fl_compat (y := 0)); [exact fl_0 |]. unfold Qdiv. apply Qmult_0_l. }
    rewrite (fl_compat (y := 0)); [exact fl_0 |]. rewrite R. reflexivity.
  - rewrite Z.sub_0_r.
    assert (R : fl (inject_Z (filesize stream) / inject_Z (filesize stream)) == 1).
    { rewrite (fl_compat (y := 1)); [exact fl_1 |].
      unfold Qdiv. apply Qmult_inv_r. exact Ht. }
    rewrite (fl_compat (y := 100)); [exact fl_100 |]. rewrite R. reflexivity.
Qed.

End RoundedProgress.


(* ---------------------------------------------------------------- *)
(** ** The page and the trace an attempt leaves *)

(** The completion flag is raised by a transfer only when it returns. *)
Lemma stream_to_buffer_flag (s : Stream) (buffer : bytes) (w : World) :
  exists p c r,
    Pytube.stream_to_buffer progress_callback complete_callback s buffer w
    = (mkWorld (set_download_complete c (set_download_progress p (session w)))
               (page w)
               (trace w ++ [mkEvent (CallStreamToBuffer s) (session w)]),
       r)
    /\ (c = download_complete (session w) \/ exists b, r = Ok b).
Proof.
  unfold Pytube.stream_to_buffer, bind at 1, record. unfold bind at 1.
  match goal with
  | |- context [Pytube.deliver _ _ ?cs ?b ?u ?w'] =>
      destruct (deliver_frame s cs b u w') as (p & r & E); rewrite E
  end.
  cbn [session page trace].
  destruct r as [buf|e].
  - destruct (ending s).
    + exists p, true, (Ok buf). split; [reflexivity | right; eauto].
    + exists p, (download_complete (session w)), (Ok buf).
      split; [destruct w as [[] ? ?]; reflexivity | left; reflexivity].
    + exists p, (download_complete (session w)), (Raise e).
      split; [destruct w as [[] ? ?]; reflexivity | left; reflexivity].
  - exists p, (download_complete (session w)), (Raise e).
    split; [destruct w as [[] ? ?]; reflexivity | left; reflexivity].
Qed.

Ltac transfer_flag :=
  match goal with
  | |- context [Pytube.stream_to_buffer _ _ ?s ?b ?w] =>
      destruct (stream_to_buffer_flag s b w) as (p & c & r & E & Hc); rewrite E
  end.

Ltac page_done :=
  eexists; split; [reflexivity |];
  repeat split; try reflexivity; try discriminate.

(** What the page shows when an attempt is over, and which calls it made. *)
Lemma attempt_page (resolve : Resolver) (url t : str) query ext mime
      (st : Session) (pg : Page) :
  Kind t query ext mime ->
  download_type st = Some t ->
  exists w',
    download_attempt resolve url (mkWorld st pg []) = (w', Ok tt)
    /\ progress_slot (page w') = []
    /\ status_slot (page w')
       = match download_data (session w') with
         | Some _ =>
             [SuccessBox (if download_complete (session w')
                          then lit "Download Ready!"
                          else lit "Processing Complete!")]
         | None => [ErrorBox (download_error (session w'))]
         end
    /\ info_slot (page w')
       = match video_info (session w') with
         | Some text => [Markdown (Some text)]
         | None => []
         end
    /\ warnings (page w') = warnings pg
    /\ (download_complete (session w') = true -> download_data (session w') <> None)
    /\ List.map ev_call (trace w')
       = CallYouTube url
           :: match resolve url with
              | Raise _ => []
              | Ok yt =>
                  CallStreams
                    :: match yt_streams yt with
                       | Raise _ => []
                       | Ok l =>
                           match query l with
                           | Some s => [CallStreamToBuffer s]
                           | None => []
                           end
                       end
              end.
Proof.
  intros K Ht. destruct st as [pr co vi er da fn mi ty].
  cbn [download_type] in Ht. subst ty.
  unfold download_attempt, reset_state, try_body.
  destruct (resolve url) as [yt|e] eqn:R.
  2: { run. page_done. }
  run.
  destruct (yt_streams yt) as [l|e] eqn:L.
  - destruct (query l) as [s|] eqn:Q.
    + destruct K; [dispatch_mp4 | dispatch_mp3].
      * rewrite Q. run. transfer_flag. run. destruct r as [buffer|e].
        -- destruct c; page_done.
        -- destruct Hc as [-> | [b Hb]]; [| discriminate Hb]. page_done.
      * rewrite Q. run. transfer_flag. run. destruct r as [buffer|e].
        -- destruct c; page_done.
        -- destruct Hc as [-> | [b Hb]]; [| discriminate Hb]. page_done.
    + destruct K; [dispatch_mp4 | dispatch_mp3]; rewrite Q; run; page_done.
  - destruct K; [dispatch_mp4 | dispatch_mp3]; page_done.
Qed.


(** The button the last lines of the script draw for a state. *)
Lemma render_slots (download_triggered : bool) (st : Session) (pg : Page)
      (tr : list Event) :
  exists pg' note,
    render download_triggered (mkWorld st pg tr) = (mkWorld st pg' tr, Ok tt)
    /\ warnings pg' = warnings pg
    /\ progress_slot pg' = progress_slot pg
    /\ status_slot pg'
       = (if truthy (download_error st) && negb download_triggered
          then [ErrorBox (download_error st)]
          else status_slot pg)
    /\ info_slot pg'
       = (if truthy (video_info st) && negb download_triggered
             && negb (truthy (download_data st))
          then [Markdown (video_info st)]
          else info_slot pg)
    /\ button_slot pg'
       = (if truthy (download_data st) && truthy (download_filename st)
          then [DownloadButton
                  (lit "Click to Download "
                       ++ match download_filename st with Some n => n | None => [] end)
                  (download_data st) (download_filename st) (download_mime st);
                InfoBox note]
          else button_slot pg).
Proof.
  destruct st as [pr co vi er da fn mi ty]. unfold render. run.
  destruct (truthy da && truthy fn);
    destruct (truthy vi && negb download_triggered && negb (truthy da));
    destruct (truthy er && negb download_triggered);
    do 2 eexists;
    first [exact [] | split; [reflexivity |]; repeat split].
Qed.

(** An execution that starts no attempt: the page before the last lines of
    the script is blank but for the warnings. *)
Lemma run_script_untriggered resolve url mp4_pressed mp3_pressed store :
  nonempty url = false \/ mp4_pressed || mp3_pressed = false ->
  run_script resolve url mp4_pressed mp3_pressed store
  = render false
      (mkWorld (init_session_state store)
               (mkPage ((if mp4_pressed then [lit "Please enter a YouTube URL."] else [])
                        ++ (if mp3_pressed then [lit "Please enter a YouTube URL."]
                            else []))
                       [] [] [] [] [])
               []).
Proof.
  intros H. unfold run_script, script, button.
  destruct H as [H|H].
  - rewrite H. destruct mp4_pressed, mp3_pressed; reflexivity.
  - destruct mp4_pressed, mp3_pressed; try discriminate. reflexivity.
Qed.

(** Everything a triggered execution leaves: the outcome, the page and the
    calls. *)
Lemma run_script_scene resolve url mp4_pressed mp3_pressed store query ext mime :
  nonempty url = true -> mp4_pressed || mp3_pressed = true ->
  Kind (if mp3_pressed then lit "mp3" else lit "mp4") query ext mime ->
  let r := run_script resolve url mp4_pressed mp3_pressed store in
  exists w' note,
    Outcome resolve url (if mp3_pressed then lit "mp3" else lit "mp4") query ext mime w'
    /\ snd r = Ok tt
    /\ after r = session w'
    /\ trace (fst r) = trace w'
    /\ warnings (page (fst r)) = []
    /\ progress_slot (page (fst r)) = []
    /\ status_slot (page (fst r))
       = match download_data (after r) with
         | Some _ =>
             [SuccessBox (if download_complete (after r)
                          then lit "Download Ready!"
                          else lit "Processing Complete!")]
         | None => [ErrorBox (download_error (after r))]
         end
    /\ info_slot (page (fst r))
       = match video_info (after r) with
         | Some text => [Markdown (Some text)]
         | None => []
         end
    /\ button_slot (page (fst r))
       = (if truthy (download_data (after r)) && truthy (download_filename (after r))
          then [DownloadButton
                  (lit "Click to Download "
                       ++ match download_filename (after r) with
                          | Some n => n
                          | None => []
                          end)
                  (download_data (after r)) (download_filename (after r))
                  (download_mime (after r));
                InfoBox note]
          else [])
    /\ (download_complete (after r) = true -> download_data (after r) <> None)
    /\ calls r
       = CallYouTube url
           :: match resolve url with
              | Raise _ => []
              | Ok yt =>
                  CallStreams
                    :: match yt_streams yt with
                       | Raise _ => []
                       | Ok l =>
                           match query l with
                           | Some s => [CallStreamToBuffer s]
                           | None => []
                           end
                       end
              end.
Proof.
  intros Hurl Hpressed K r. subst r.
  rewrite run_script_triggered by assumption.
  match goal with
  | |- context [(_ ;; _) (mkWorld ?st ?pg [])] =>
      destruct (attempt_outcome resolve url st pg K eq_refl)
        as (w' & A & _ & _ & B & O);
      destruct (attempt_page resolve url st pg K eq_refl)
        as (w'' & A' & Hprogress & Hstatus & Hinfo & Hwarn & Hflag & Hcalls);
      rewrite A in A'; injection A' as <-;
      assert (E : (download_attempt resolve url ;; render true) (mkWorld st pg [])
                  = render true w')
        by (unfold bind at 1; rewrite A; reflexivity);
      rewrite ?E
  end.
  unfold calls. clear E A.
  destruct w' as [st' pg' tr'].
  destruct (render_slots true st' pg' tr')
    as (pg'' & note & F & Rw & Rp & Rs & Ri & Rb).
  rewrite F. unfold after. cbn [fst snd session page trace] in *.
  rewrite andb_false_r in Rs. rewrite andb_false_r in Ri. cbn [andb] in Ri.
  exists (mkWorld st' pg' tr'), note. cbn [session page trace].
  rewrite Rw, Rp, Rs, Ri, Rb, B.
  repeat split; assumption.
Qed.


(** Everything an execution without an attempt leaves. *)
Lemma run_script_rest resolve url mp4_pressed mp3_pressed store :
  nonempty url = false \/ mp4_pressed || mp3_pressed = false ->
  let r := run_script resolve url mp4_pressed mp3_pressed store in
  let st := init_session_state store in
  exists note,
    snd r = Ok tt
    /\ after r = st
    /\ calls r = []
    /\ warnings (page (fst r))
       = (if mp4_pressed then [lit "Please enter a YouTube URL."] else [])
           ++ (if mp3_pressed then [lit "Please enter a YouTube URL."] else [])
    /\ progress_slot (page (fst r)) = []
    /\ status_slot (page (fst r))
       = (if truthy (download_error st) then [ErrorBox (download_error st)] else [])
    /\ info_slot (page (fst r))
       = (if truthy (video_info st) && negb (truthy (download_data st))
          then [Markdown (video_info st)]
          else [])
    /\ button_slot (page (fst r))
       = (if truthy (download_data st) && truthy (download_filename st)
          then [DownloadButton
                  (lit "Click to Download "
                       ++ match download_filename st with Some n => n | None => [] end)
                  (download_data st) (download_filename st) (download_mime st);
                InfoBox note]
          else []).
Proof.
  intros H r st. subst r.
  rewrite (run_script_untriggered resolve url mp4_pressed mp3_pressed store H).
  match goal with
  | |- context [render false (mkWorld ?s ?pg ?tr)] =>
      destruct (render_slots false s pg tr)
        as (pg' & note & F & Rw & Rp & Rs & Ri & Rb)
  end.
  exists note. unfold calls, after. rewrite F. cbn [fst snd session page trace].
  rewrite Rw, Rp, Rs, Ri, Rb. cbn [warnings progress_slot status_slot info_slot
                                   button_slot negb List.map].
  rewrite !andb_true_r. repeat split.
Qed.

Ltac with_scene Hurl Hpressed :=
  match goal with
  | |- context [run_script ?resolve ?url ?b4 true ?store] =>
      destruct (@run_script_scene resolve url b4 true store _ _ _
                                  Hurl Hpressed kind_mp3)
        as (w' & note & O & Sok & Safter & Strace & Swarn & Sprogress & Sstatus
            & Sinfo & Sbutton & Sflag & Scalls)
  | |- context [run_script ?resolve ?url ?b4 false ?store] =>
      destruct (@run_script_scene resolve url b4 false store _ _ _
                                  Hurl Hpressed kind_mp4)
        as (w' & note & O & Sok & Safter & Strace & Swarn & Sprogress & Sstatus
            & Sinfo & Sbutton & Sflag & Scalls)
  end.

(* ---------------------------------------------------------------- *)
(** ** Executions that start no attempt (lines 55-68, 177-192) *)

(** X4. A button pressed with the URL field empty only warns: one warning for
    the button, the session state as it was, no call into the resolver. *)
Theorem empty_url_only_warns resolve url mp4_pressed mp3_pressed store :
  nonempty url = false ->
  let r := run_script resolve url mp4_pressed mp3_pressed store in
  snd r = Ok tt
  /\ after r = init_session_state store
  /\ calls r = []
  /\ warnings (page (fst r))
     = (if mp4_pressed then [lit "Please enter a YouTube URL."] else [])
         ++ (if mp3_pressed then [lit "Please enter a YouTube URL."] else []).
Proof.
  intros Hurl.
  destruct (@run_script_rest resolve url mp4_pressed mp3_pressed store
                             (or_introl Hurl))
    as (note & Hok & Hafter & Hcalls & Hwarn & _).
  cbv zeta. auto.
Qed.

(** X5. A rerun with no button pressed keeps the session state and shows what is
    in it: the error if there is one, the download button if there are bytes
    and a name, and the info text only while there are no bytes. *)
Theorem rerun_shows_what_the_state_holds resolve url (st : Session) :
  let r := run_script resolve url false false (Some st) in
  after r = st
  /\ calls r = []
  /\ warnings (page (fst r)) = []
  /\ progress_slot (page (fst r)) = []
  /\ status_slot (page (fst r))
     = (if truthy (download_error st) then [ErrorBox (download_error st)] else [])
  /\ info_slot (page (fst r))
     = (if truthy (video_info st) && negb (truthy (download_data st))
        then [Markdown (video_info st)]
        else [])
  /\ exists note,
      button_slot (page (fst r))
      = (if truthy (download_data st) && truthy (download_filename st)
         then [DownloadButton
                 (lit "Click to Download "
                      ++ match download_filename st with Some n => n | None => [] end)
                 (download_data st) (download_filename st) (download_mime st);
               InfoBox note]
         else []).
Proof.
  destruct (@run_script_rest resolve url false false (Some st) (or_intror eq_refl))
    as (note & Hok & Hafter & Hcalls & Hwarn & Hprogress & Hstatus & Hinfo & Hbutton).
  cbv zeta. cbn [init_session_state] in *. eauto 10.
Qed.


(* ---------------------------------------------------------------- *)
(** ** What an attempt shows and calls (lines 77-173) *)

(** X12. When an attempt is over the status slot holds its verdict: a success
    box if bytes were stored, reading "Download Ready!" if the completion
    callback fired and "Processing Complete!" if it did not, and otherwise
    an error box with [download_error]. *)
Theorem status_tells_the_outcome resolve url mp4_pressed mp3_pressed store :
  nonempty url = true -> mp4_pressed || mp3_pressed = true ->
  let r := run_script resolve url mp4_pressed mp3_pressed store in
  status_slot (page (fst r))
  = match download_data (after r) with
    | Some _ =>
        [SuccessBox (if download_complete (after r)
                     then lit "Download Ready!"
                     else lit "Processing Complete!")]
    | None => [ErrorBox (download_error (after r))]
    end.
Proof.
  intros Hurl Hpressed.
  destruct mp3_pressed; with_scene Hurl Hpressed; exact Sstatus.
Qed.

(** X13. No execution ends with a progress bar or a spinner on the page. *)
Theorem nothing_left_spinning resolve url mp4_pressed mp3_pressed store :
  let u := page (fst (run_script resolve url mp4_pressed mp3_pressed store)) in
  progress_slot u = []
  /\ has_spinner (status_slot u) = false
  /\ has_spinner (info_slot u) = false
  /\ has_spinner (button_slot u) = false.
Proof.
  destruct (nonempty url) eqn:Hurl;
    [destruct (mp4_pressed || mp3_pressed) eqn:Hpressed |].
  - destruct mp3_pressed; with_scene Hurl Hpressed; cbv zeta;
      rewrite Sprogress, Sstatus, Sinfo, Sbutton;
      destruct (download_data _); destruct (video_info _);
      destruct (truthy _ && truthy _); repeat split.
  - destruct (@run_script_rest resolve url mp4_pressed mp3_pressed store
                               (or_intror Hpressed))
      as (note & _ & _ & _ & _ & Hp & Hs & Hi & Hb).
    cbv zeta. rewrite Hp, Hs, Hi, Hb.
    destruct (truthy (download_error _)); destruct (truthy (video_info _) && _);
      destruct (truthy (download_data _) && _); repeat split.
  - destruct (@run_script_rest resolve url mp4_pressed mp3_pressed store
                               (or_introl Hurl))
      as (note & _ & _ & _ & _ & Hp & Hs & Hi & Hb).
    cbv zeta. rewrite Hp, Hs, Hi, Hb.
    destruct (truthy (download_error _)); destruct (truthy (video_info _) && _);
      destruct (truthy (download_data _) && _); repeat split.
Qed.

(** X11. An attempt calls the resolver in one fixed order and never twice:
    [YouTube(url)] with the URL as typed, then the stream list if that
    returned, then one transfer of the selected stream if there is one. *)
Theorem resolver_calls_in_order resolve url mp4_pressed mp3_pressed store :
  nonempty url = true -> mp4_pressed || mp3_pressed = true ->
  calls (run_script resolve url mp4_pressed mp3_pressed store)
  = CallYouTube url
      :: match resolve url with
         | Raise _ => []
         | Ok yt =>
             CallStreams
               :: match yt_streams yt with
                  | Raise _ => []
                  | Ok l =>
                      match (if mp3_pressed then best_audio l
                             else best_progressive_mp4 l) with
                      | Some s => [CallStreamToBuffer s]
                      | None => []
                      end
                  end
         end.
Proof.
  intros Hurl Hpressed.
  destruct mp3_pressed; with_scene Hurl Hpressed; exact Scalls.
Qed.

(** X14. The error an attempt leaves has one of two forms: the no-stream message
    of the kind, or "An error occurred: " followed by the message of an
    exception. *)
Theorem error_message_forms resolve url mp4_pressed mp3_pressed store (err : str) :
  nonempty url = true -> mp4_pressed || mp3_pressed = true ->
  download_error (after (run_script resolve url mp4_pressed mp3_pressed store))
  = Some err ->
  err = (if mp3_pressed then lit "No suitable MP3 stream found."
         else lit "No suitable MP4 stream found.")
  \/ exists e, err = lit "An error occurred: " ++ e.
Proof.
  intros Hurl Hpressed.
  destruct mp3_pressed; with_outcome Hurl Hpressed;
    destruct O;
    match goal with
    | H : download_error _ = _ |- _ => rewrite H
    end;
    intros Herr; try discriminate Herr; injection Herr as <-;
    first [left; reflexivity | right; eexists; reflexivity].
Qed.

(** X15. The info text is in [video_info] after an attempt exactly when no
    exception was reported: it survives the no-stream error, and the handler
    clears it. *)
Theorem info_cleared_by_exceptions_only resolve url mp4_pressed mp3_pressed store :
  nonempty url = true -> mp4_pressed || mp3_pressed = true ->
  let st := after (run_script resolve url mp4_pressed mp3_pressed store) in
  video_info st = None
  <-> exists e, download_error st = Some (lit "An error occurred: " ++ e).
Proof.
  intros Hurl Hpressed.
  destruct mp3_pressed; with_outcome Hurl Hpressed;
    destruct O;
    repeat match goal with
           | H : download_error _ = _ |- _ => rewrite H
           | H : video_info _ = _ |- _ => rewrite H
           end;
    (split; [intros Hnone | intros (e' & He')]);
    try discriminate; eauto.
Qed.


(* ---------------------------------------------------------------- *)
(** ** From one execution to the next *)

(** The completion flag is never up without bytes in the buffer. *)
Lemma run_script_keeps_flag resolve url mp4_pressed mp3_pressed store :
  (forall st, store = Some st ->
              download_complete st = true -> download_data st <> None) ->
  let st' := after (run_script resolve url mp4_pressed mp3_pressed store) in
  download_complete st' = true -> download_data st' <> None.
Proof.
  intros Hstore.
  destruct (nonempty url) eqn:Hurl;
    [destruct (mp4_pressed || mp3_pressed) eqn:Hpressed |].
  - destruct mp3_pressed; with_scene Hurl Hpressed; exact Sflag.
  - destruct (@run_script_rest resolve url mp4_pressed mp3_pressed store
                               (or_intror Hpressed)) as (note & _ & Hafter & _).
    cbv zeta. rewrite Hafter.
    destruct store as [st|]; [apply Hstore; reflexivity | discriminate].
  - destruct (@run_script_rest resolve url mp4_pressed mp3_pressed store
                               (or_introl Hurl)) as (note & _ & Hafter & _).
    cbv zeta. rewrite Hafter.
    destruct store as [st|]; [apply Hstore; reflexivity | discriminate].
Qed.

(** X18. In every reachable session state, [download_complete] is true only if
    [download_data] is set: the flag the completion callback raises never
    outlives a failed or a new attempt. *)
Theorem complete_only_with_data (st : Session) :
  reachable st ->
  download_complete st = true -> download_data st <> None.
Proof.
  induction 1 as [resolve url b4 b3 | st resolve url b4 b3 Hst IH].
  - apply run_script_keeps_flag. intros st0 H0. discriminate H0.
  - apply run_script_keeps_flag. intros st0 H0. injection H0 as <-. exact IH.
Qed.

(** X19. A download survives reruns: after an attempt that stored at least one
    byte, every rerun without a button pressed keeps the state and draws the
    download button with those bytes, the name and the MIME type of the
    attempt, and neither the info text nor an error. *)
Theorem download_survives_reruns
        resolve url mp4_pressed mp3_pressed store resolve' url' (data : bytes) :
  nonempty url = true -> mp4_pressed || mp3_pressed = true ->
  let st := after (run_script resolve url mp4_pressed mp3_pressed store) in
  download_data st = Some data -> nonempty data = true ->
  let r := run_script resolve' url' false false (Some st) in
  after r = st
  /\ status_slot (page (fst r)) = []
  /\ info_slot (page (fst r)) = []
  /\ exists name mime note,
      download_filename st = Some name
      /\ download_mime st = Some mime
      /\ button_slot (page (fst r))
         = [DownloadButton (lit "Click to Download " ++ name)
                           (Some data) (Some name) (Some mime);
            InfoBox note].
Proof.
  intros Hurl Hpressed st Hdata Hnonempty r. subst r.
  destruct (@run_script_rest resolve' url' false false (Some st) (or_intror eq_refl))
    as (note & _ & Hafter & _ & _ & _ & Hstatus & Hinfo & Hbutton).
  cbn [init_session_state] in *.
  rewrite Hafter, Hstatus, Hinfo, Hbutton. clear Hafter Hstatus Hinfo Hbutton.
  subst st. revert Hdata.
  destruct mp3_pressed; with_outcome Hurl Hpressed; intros Hdata;
    destruct O; try congruence;
    repeat match goal with
           | H : download_error _ = _ |- _ => rewrite H
           | H : download_filename _ = _ |- _ => rewrite H
           | H : download_mime _ = _ |- _ => rewrite H
           end;
    rewrite Hdata; cbn [truthy]; rewrite Hnonempty;
    rewrite nonempty_app_r by reflexivity;
    rewrite andb_false_r; cbn [andb negb];
    (split; [reflexivity |]); (split; [reflexivity |]); (split; [reflexivity |]);
    do 3 eexists; repeat split.
Qed.

(** X20. An error survives reruns too: after a failed attempt, every rerun
    without a button pressed shows the error text and no download button. *)
Theorem error_survives_reruns
        resolve url mp4_pressed mp3_pressed store resolve' url' (err : str) :
  nonempty url = true -> mp4_pressed || mp3_pressed = true ->
  let st := after (run_script resolve url mp4_pressed mp3_pressed store) in
  download_error st = Some err ->
  let r := run_script resolve' url' false false (Some st) in
  after r = st
  /\ status_slot (page (fst r)) = [ErrorBox (Some err)]
  /\ button_slot (page (fst r)) = []
  /\ info_slot (page (fst r))
     = match video_info st with
       | Some text => [Markdown (Some text)]
       | None => []
       end.
Proof.
  intros Hurl Hpressed st Herr r. subst r.
  destruct (@run_script_rest resolve' url' false false (Some st) (or_intror eq_refl))
    as (note & _ & Hafter & _ & _ & _ & Hstatus & Hinfo & Hbutton).
  cbn [init_session_state] in *.
  rewrite Hafter, Hstatus, Hinfo, Hbutton. clear Hafter Hstatus Hinfo Hbutton.
  subst st. revert Herr.
  destruct mp3_pressed; with_outcome Hurl Hpressed; intros Herr;
    destruct O; try congruence;
    repeat match goal with
           | H : download_data _ = _ |- _ => rewrite H
           | H : video_info _ = _ |- _ => rewrite H
           end;
    rewrite Herr;
    match goal with
    | H : download_error _ = Some _ |- _ =>
        rewrite H in Herr; injection Herr as <-
    end;
    repeat split.
Qed.

(** X8. When no character of the title is allowed in a filename, the name is
    the bare extension. *)
Theorem filename_of_an_unusable_title
        resolve url mp4_pressed mp3_pressed store (yt : Video) (l : list Stream) :
  nonempty url = true -> mp4_pressed || mp3_pressed = true ->
  resolve url = Ok yt -> yt_streams yt = Ok l ->
  Forall (fun c => isalnum c || char_in c [ch " "; ch "."; ch "_"; ch "-"] = false)
         (yt_title yt) ->
  download_filename (after (run_script resolve url mp4_pressed mp3_pressed store))
  = Some (if mp3_pressed then lit ".mp3" else lit ".mp4").
Proof.
  intros Hurl Hpressed Hr Hl Htitle.
  apply sanitized_nothing_kept in Htitle.
  destruct mp3_pressed; with_outcome Hurl Hpressed;
    destruct O;
    repeat match goal with
           | H : resolve url = _ |- _ =>
               rewrite Hr in H; first [discriminate H | injection H as <-]
           | H : yt_streams yt = _ |- _ =>
               rewrite Hl in H; first [discriminate H | injection H as <-]
           end;
    match goal with
    | H : download_filename _ = _ |- _ => rewrite H
    end;
    rewrite Htitle; reflexivity.
Qed.


(* ---------------------------------------------------------------- *)
(** ** The transfer decides the attempt (lines 133-147, 165-169) *)

(** Chunks that are not empty and fit the announced size all reach the
    buffer: no notification divides by zero. *)
Lemma deliver_ok (s : Stream) (cs : list bytes) :
  forall (remaining : Z) (buffer : bytes) (w : World),
    Forall (fun chunk => chunk <> []) cs ->
    (Z.of_nat (List.length (List.concat cs)) <= remaining <= filesize s)%Z ->
    exists p,
      Pytube.deliver progress_callback s cs remaining buffer w
      = (mkWorld (set_download_progress p (session w)) (page w) (trace w),
         Ok (buffer ++ List.concat cs)).
Proof.
  induction cs as [|chunk cs IH]; intros remaining buffer w Hne Hsize.
  - exists (download_progress (session w)).
    cbn [Pytube.deliver List.concat ret]. rewrite app_nil_r.
    destruct w as [[] ? ?]. reflexivity.
  - inversion Hne as [|? ? Hchunk Hrest]; subst.
    cbn [List.concat] in Hsize. rewrite length_app, Nat2Z.inj_add in Hsize.
    assert (Hlen : (0 < Z.of_nat (List.length chunk))%Z)
      by (destruct chunk; [contradiction | cbn [List.length]; lia]).
    cbn [Pytube.deliver]. unfold bind at 1.
    rewrite progress_callback_nonzero by lia.
    match goal with
    | |- context [Pytube.deliver _ _ _ ?r ?b ?w'] =>
        destruct (IH r b w' Hrest) as (p & E); [lia | rewrite E]
    end.
    exists p. cbn [List.concat]. rewrite app_assoc. reflexivity.
Qed.

Lemma stream_to_buffer_result (s : Stream) (w : World) :
  Forall (fun chunk => chunk <> []) (chunks s) ->
  (Z.of_nat (List.length (List.concat (chunks s))) <= filesize s)%Z ->
  snd (Pytube.stream_to_buffer progress_callback complete_callback s [] w)
  = match ending s with
    | Fails e => Raise e
    | _ => Ok (List.concat (chunks s))
    end.
Proof.
  intros Hne Hsize.
  unfold Pytube.stream_to_buffer, bind at 1, record. unfold bind at 1.
  match goal with
  | |- context [Pytube.deliver _ _ ?cs ?r ?b ?w'] =>
      destruct (deliver_ok s (cs := cs) (remaining := r) b w' Hne) as (p & E);
      [lia | rewrite E]
  end.
  destruct (ending s); reflexivity.
Qed.

(** With a stream of size zero, the first chunk already divides by zero. *)
Lemma stream_to_buffer_zero_size (s : Stream) (w : World) :
  filesize s = 0%Z -> chunks s <> [] ->
  snd (Pytube.stream_to_buffer progress_callback complete_callback s [] w)
  = Raise (lit "division by zero").
Proof.
  intros Hzero Hchunks.
  unfold Pytube.stream_to_buffer, bind at 1, record. unfold bind at 1.
  destruct (chunks s) as [|chunk cs]; [contradiction |].
  cbn [Pytube.deliver]. unfold bind at 1, progress_callback, bind at 1, lift_exc.
  rewrite Hzero. reflexivity.
Qed.

(** X16. For a stream whose chunks are not empty and fit the announced size, the
    end of the transfer decides the attempt.  If it raises, the chunks
    already buffered are discarded and the error is reported; otherwise the
    bytes stored are the chunks, in order, and there is no error. *)
Theorem transfer_decides_attempt
        resolve url mp4_pressed mp3_pressed store
        (yt : Video) (l : list Stream) (s : Stream) :
  nonempty url = true -> mp4_pressed || mp3_pressed = true ->
  resolve url = Ok yt -> yt_streams yt = Ok l ->
  (if mp3_pressed then best_audio l else best_progressive_mp4 l) = Some s ->
  Forall (fun chunk => chunk <> []) (chunks s) ->
  (Z.of_nat (List.length (List.concat (chunks s))) <= filesize s)%Z ->
  let st := after (run_script resolve url mp4_pressed mp3_pressed store) in
  match ending s with
  | Fails e =>
      download_data st = None
      /\ download_error st = Some (lit "An error occurred: " ++ e)
  | _ =>
      download_data st = Some (List.concat (chunks s))
      /\ download_error st = None
  end.
Proof.
  intros Hurl Hpressed Hr Hl Hq Hne Hsize.
  pose proof (fun w => stream_to_buffer_result s w Hne Hsize) as Hresult.
  destruct mp3_pressed; with_outcome Hurl Hpressed;
    destruct O as [e Hr' | yt' e Hr' Hl' | yt' l' Hr' Hl' Hq'
                   | yt' l' s' e Hr' Hl' Hq' _ (w0 & Ht)
                   | yt' l' s' buffer Hr' Hl' Hq' _ (w0 & Ht)];
    rewrite Hr in Hr'; try discriminate Hr'; injection Hr' as <-;
    rewrite Hl in Hl'; try discriminate Hl'; injection Hl' as <-;
    rewrite Hq in Hq'; try discriminate Hq'; injection Hq' as <-;
    rewrite Hresult in Ht;
    destruct (ending s); try discriminate Ht; injection Ht as <-;
    split; assumption.
Qed.

(** X17. A selected stream that announces size zero and still delivers a chunk
    makes the attempt fail with the callback's division by zero. *)
Theorem zero_size_stream_fails
        resolve url mp4_pressed mp3_pressed store
        (yt : Video) (l : list Stream) (s : Stream) :
  nonempty url = true -> mp4_pressed || mp3_pressed = true ->
  resolve url = Ok yt -> yt_streams yt = Ok l ->
  (if mp3_pressed then best_audio l else best_progressive_mp4 l) = Some s ->
  filesize s = 0%Z -> chunks s <> [] ->
  let st := after (run_script resolve url mp4_pressed mp3_pressed store) in
  download_error st = Some (lit "An error occurred: division by zero")
  /\ download_data st = None.
Proof.
  intros Hurl Hpressed Hr Hl Hq Hzero Hchunks.
  pose proof (fun w => stream_to_buffer_zero_size s w Hzero Hchunks) as Hresult.
  destruct mp3_pressed; with_outcome Hurl Hpressed;
    destruct O as [e Hr' | yt' e Hr' Hl' | yt' l' Hr' Hl' Hq'
                   | yt' l' s' e Hr' Hl' Hq' _ (w0 & Ht)
                   | yt' l' s' buffer Hr' Hl' Hq' _ (w0 & Ht)];
    rewrite Hr in Hr'; try discriminate Hr'; injection Hr' as <-;
    rewrite Hl in Hl'; try discriminate Hl'; injection Hl' as <-;
    rewrite Hq in Hq'; try discriminate Hq'; injection Hq' as <-;
    rewrite Hresult in Ht;
    try discriminate Ht; injection Ht as <-;
    split; assumption.
Qed.


(* ---------------------------------------------------------------- *)
(** ** Which stream the queries select (lines 114 and 123) *)

Lemma str_eqb_true (a b : str) : str_eqb a b = true <-> a = b.
Proof.
  split.
  - revert b; induction a as [|x a IH]; intros [|y b]; cbn [str_eqb];
      try discriminate; auto.
    intros H. apply andb_prop in H as [Hx Hab].
    apply N.eqb_eq in Hx. subst. f_equal. auto.
  - intros <-. induction a as [|x a IH]; cbn [str_eqb]; [reflexivity |].
    now rewrite char_eqb_refl, IH.
Qed.

Lemma insert_by_In (key : Stream -> N) (x y : Stream) (l : list Stream) :
  In y (Pytube.insert_by key x l) <-> y = x \/ In y l.
Proof.
  induction l as [|z l IH]; cbn [Pytube.insert_by].
  - cbn. intuition.
  - destruct (key x <? key z)%N; cbn [In]; [intuition |].
    rewrite IH. intuition.
Qed.

Lemma sorted_In (key : Stream -> N) (xs : list Stream) :
  forall acc y,
    In y (fold_left (fun acc x => Pytube.insert_by key x acc) xs acc)
    <-> In y xs \/ In y acc.
Proof.
  induction xs as [|x xs IH]; intros acc y; cbn [fold_left].
  - cbn. intuition.
  - rewrite IH, insert_by_In. cbn [In]. intuition.
Qed.

Lemma insert_by_sorted (key : Stream -> N) (x : Stream) (l : list Stream) :
  StronglySorted (fun a b => (key a <= key b)%N) l ->
  StronglySorted (fun a b => (key a <= key b)%N) (Pytube.insert_by key x l).
Proof.
  induction 1 as [|z l Hl IH Hz]; cbn [Pytube.insert_by].
  - constructor; constructor.
  - destruct (N.ltb_spec (key x) (key z)) as [Hlt|Hge].
    + constructor; [constructor; assumption |].
      constructor; [lia |].
      eapply Forall_impl; [| exact Hz]. cbn. intros a Ha. lia.
    + constructor; [exact IH |].
      rewrite Forall_forall. intros a Ha.
      apply insert_by_In in Ha as [-> | Ha]; [exact Hge |].
      rewrite Forall_forall in Hz. auto.
Qed.

Lemma sorted_sorted (key : Stream -> N) (xs : list Stream) :
  forall acc,
    StronglySorted (fun a b => (key a <= key b)%N) acc ->
    StronglySorted (fun a b => (key a <= key b)%N)
                   (fold_left (fun acc x => Pytube.insert_by key x acc) xs acc).
Proof.
  induction xs as [|x xs IH]; intros acc Hacc; cbn [fold_left].
  - exact Hacc.
  - apply IH, insert_by_sorted, Hacc.
Qed.

Lemma sorted_last (key : Stream -> N) (l : list Stream) (s : Stream) :
  StronglySorted (fun a b => (key a <= key b)%N) (l ++ [s]) ->
  Forall (fun a => (key a <= key s)%N) (l ++ [s]).
Proof.
  induction l as [|a l IH]; cbn [app]; intros H.
  - constructor; [lia | constructor].
  - inversion H as [|? ? Hl Ha]; subst. constructor; [| auto].
    rewrite Forall_forall in Ha. apply Ha, in_or_app. right. left. reflexivity.
Qed.

(** [order_by(attr).desc().first()]: a stream that has the attribute, with
    the largest value of it, if any stream has the attribute at all. *)
Lemma first_desc_order_by (attr : Stream -> option N) (l : list Stream) :
  match Pytube.first (Pytube.desc (Pytube.order_by attr l)) with
  | Some s =>
      In s l
      /\ exists n, attr s = Some n
                   /\ forall s' n', In s' l -> attr s' = Some n' -> (n' <= n)%N
  | None => forall s, In s l -> attr s = None
  end.
Proof.
  unfold Pytube.first, Pytube.desc, Pytube.order_by.
  set (sorted := fold_left _ _ _).
  assert (Hin : forall y, In y sorted <-> In y l /\ Pytube.has_attr attr y = true).
  { intros y. unfold sorted. rewrite sorted_In, filter_In. cbn [In]. intuition. }
  assert (Hs : StronglySorted
                 (fun a b => (Pytube.attr_key attr a <= Pytube.attr_key attr b)%N)
                 sorted).
  { apply sorted_sorted. constructor. }
  destruct (rev sorted) as [|s t] eqn:E.
  - cbn [hd_error]. intros s Hs'.
    assert (sorted = []) as E0.
    { rewrite <- (rev_involutive sorted), E. reflexivity. }
    destruct (attr s) eqn:Ha; [| reflexivity].
    assert (In s sorted) as Hc.
    { apply Hin. split; [exact Hs' |]. unfold Pytube.has_attr. now rewrite Ha. }
    rewrite E0 in Hc. contradiction.
  - cbn [hd_error].
    assert (sorted = rev t ++ [s]) as E0.
    { rewrite <- (rev_involutive sorted), E. reflexivity. }
    assert (In s sorted) as Hmem by (rewrite E0; apply in_or_app; right; left; reflexivity).
    apply Hin in Hmem as [Hl Hhas].
    split; [exact Hl |].
    unfold Pytube.has_attr in Hhas. destruct (attr s) as [n|] eqn:Hn; [| discriminate].
    exists n. split; [reflexivity |].
    intros s' n' Hl' Hn'.
    rewrite E0 in Hs. apply sorted_last in Hs. rewrite <- E0 in Hs.
    rewrite Forall_forall in Hs.
    assert (In s' sorted) as Hmem'.
    { apply Hin. split; [exact Hl' |]. unfold Pytube.has_attr. now rewrite Hn'. }
    specialize (Hs s' Hmem'). unfold Pytube.attr_key in Hs.
    now rewrite Hn, Hn' in Hs.
Qed.

(** X9. The video query (line 114) selects a progressive mp4 stream of the
    list, with a resolution no other such stream exceeds; it selects nothing
    only when the list has no progressive mp4 stream with a resolution. *)
Theorem video_query_selects_best_progressive_mp4 (l : list Stream) :
  match best_progressive_mp4 l with
  | Some s =>
      In s l /\ is_progressive s = true /\ subtype s = lit "mp4"
      /\ exists n,
          resolution s = Some n
          /\ forall s' n',
              In s' l -> is_progressive s' = true -> subtype s' = lit "mp4" ->
              resolution s' = Some n' -> (n' <= n)%N
  | None =>
      forall s, In s l -> is_progressive s = true -> subtype s = lit "mp4" ->
                resolution s = None
  end.
Proof.
  unfold best_progressive_mp4.
  pose proof (first_desc_order_by resolution
                (Pytube.filter_progressive (lit "mp4") l)) as H.
  destruct (Pytube.first _) as [s|].
  - destruct H as (Hin & n & Hn & Hmax).
    unfold Pytube.filter_progressive in Hin. apply filter_In in Hin as [Hl Hf].
    apply andb_prop in Hf as [Hp He]. apply str_eqb_true in He.
    repeat (split; [assumption |]).
    exists n. split; [exact Hn |].
    intros s' n' Hl' Hp' He' Hn'. apply (Hmax s' n'); [| exact Hn'].
    unfold Pytube.filter_progressive. apply filter_In. split; [exact Hl' |].
    rewrite Hp'. apply str_eqb_true. exact He'.
  - intros s Hl Hp He. apply H.
    unfold Pytube.filter_progressive. apply filter_In. split; [exact Hl |].
    rewrite Hp. apply str_eqb_true. exact He.
Qed.

(** X10. The audio query (line 123) selects an audio-only stream of the list,
    with an average bitrate no other audio-only stream exceeds; it selects
    nothing only when no audio-only stream of the list has a bitrate.  The
    container of the stream plays no part. *)
Theorem audio_query_selects_best_audio_only (l : list Stream) :
  match best_audio l with
  | Some s =>
      In s l /\ is_progressive s = false /\ stype s = audio
      /\ exists n,
          abr s = Some n
          /\ forall s' n',
              In s' l -> is_progressive s' = false -> stype s' = audio ->
              abr s' = Some n' -> (n' <= n)%N
  | None =>
      forall s, In s l -> is_progressive s = false -> stype s = audio ->
                abr s = None
  end.
Proof.
  unfold best_audio.
  pose proof (first_desc_order_by abr (Pytube.filter_only_audio l)) as H.
  assert (Hf : forall s, In s (Pytube.filter_only_audio l)
                         <-> In s l /\ is_progressive s = false /\ stype s = audio).
  { intros s. unfold Pytube.filter_only_audio. rewrite filter_In.
    unfold Pytube.includes_audio_track, Pytube.includes_video_track.
    destruct (is_progressive s), (stype s); cbn; intuition congruence. }
  destruct (Pytube.first _) as [s|].
  - destruct H as (Hin & n & Hn & Hmax).
    apply Hf in Hin as (Hl & Hp & Ht).
    repeat (split; [assumption |]).
    exists n. split; [exact Hn |].
    intros s' n' Hl' Hp' Ht' Hn'. apply (Hmax s' n'); [| exact Hn'].
    apply Hf. auto.
  - intros s Hl Hp Ht. apply H. apply Hf. auto.
Qed.

End App.


(* ------------------------------------------------------------------ *)
(** ** The scenarios, run

    The script below runs with exact arithmetic ([no_rounding]) and the
    ASCII character tables ([ascii_only]), on a fresh session. *)

Import Scenario.

(** C1, counterexample. Scenario B: an audio attempt on a video without
    an audio-only stream reports the kind as MP3, the value of
    [download_type], not as AUDIO. *)
Lemma no_audio_stream_message_is_MP3 :
  let r := run_script no_rounding ascii_only ascii_only resolver_A url false true None in
  Pytube.filter_only_audio [progressive_720p] = []
  /\ download_error (after r) = Some (lit "No suitable MP3 stream found.")
  /\ download_error (after r) <> Some (lit "No suitable AUDIO stream found.").
Proof.
  cbv zeta. split; [reflexivity |]. split; [reflexivity |].
  vm_compute. discriminate.
Qed.

Lemma no_audio_stream_reported_witness :
  nonempty url = true
  /\ resolver_A url = Ok (test_video [progressive_720p])
  /\ yt_streams (test_video [progressive_720p]) = Ok [progressive_720p]
  /\ Pytube.filter_only_audio [progressive_720p] = []
  /\ (let r := run_script no_rounding ascii_only ascii_only resolver_A url
                          false true None in
      download_error (after r) = Some (lit "No suitable MP3 stream found.")
      /\ download_data (after r) = None
      /\ transferred (trace (fst r)) = false).
Proof.
  do 4 (split; [reflexivity |]).
  apply (@no_audio_stream_reported no_rounding ascii_only ascii_only resolver_A url
           false None (test_video [progressive_720p]) [progressive_720p]);
    reflexivity.
Defined.

(** C2, counterexample. After an attempt that finds no stream, and after
    one whose transfer breaks, the filename and the MIME type are set and
    the data is not. *)
Lemma filename_set_without_data :
  let no_stream :=
    after (run_script no_rounding ascii_only ascii_only resolver_A url false true None) in
  let broken :=
    after (run_script no_rounding ascii_only ascii_only resolver_broken url
                      false true None) in
  (download_filename no_stream = Some (lit "Test Video.mp3")
   /\ download_mime no_stream = Some (lit "audio/mp3")
   /\ download_data no_stream = None
   /\ download_error no_stream = Some (lit "No suitable MP3 stream found."))
  /\ (download_filename broken = Some (lit "Test Video.mp3")
      /\ download_mime broken = Some (lit "audio/mp3")
      /\ download_data broken = None
      /\ download_error broken
         = Some (lit "An error occurred: Connection reset by peer")).
Proof.
  cbv zeta. repeat split; reflexivity.
Qed.

Lemma filename_and_mime_set_at_stream_selection_witness :
  nonempty url = true /\ false || true = true
  /\ (let st := after (run_script no_rounding ascii_only ascii_only resolver_broken url
                                  false true None) in
      (download_filename st <> None <-> download_mime st <> None)
      /\ (download_data st <> None ->
          download_filename st <> None /\ download_mime st <> None)
      /\ (download_filename st <> None <->
          exists yt l, resolver_broken url = Ok yt /\ yt_streams yt = Ok l)).
Proof.
  split; [reflexivity |]. split; [reflexivity |].
  apply (@filename_and_mime_set_at_stream_selection no_rounding ascii_only ascii_only
           resolver_broken url false true None); reflexivity.
Defined.

Lemma exactly_one_of_data_and_error_witness :
  nonempty url = true /\ true || false = true
  /\ (let r := run_script no_rounding ascii_only ascii_only resolver_A url
                          true false None in
      snd r = Ok tt
      /\ ((download_data (after r) <> None /\ download_error (after r) = None)
          \/ (download_data (after r) = None /\ download_error (after r) <> None))).
Proof.
  split; [reflexivity |]. split; [reflexivity |].
  apply (@exactly_one_of_data_and_error no_rounding ascii_only ascii_only
           resolver_A url true false None); reflexivity.
Defined.

(** C4, counterexample. A notification for a stream of size zero, with
    nothing remaining, divides by zero; in an attempt, the handler reports
    it. *)
Lemma progress_of_empty_stream_divides_by_zero :
  (0 <= 0 <= filesize audio_zero_size)%Z
  /\ snd (progress_callback no_rounding audio_zero_size [] 0
                            (mkWorld (init_session_state None) blank_page []))
     = Raise (lit "division by zero")
  /\ download_error
       (after (run_script no_rounding ascii_only ascii_only resolver_zero_size url
                          false true None))
     = Some (lit "An error occurred: division by zero").
Proof.
  split; [split; discriminate |]. split; reflexivity.
Qed.

Lemma progress_percent_in_range_witness :
  (forall x y : Q, x <= y -> no_rounding x <= no_rounding y)
  /\ no_rounding 0 == 0 /\ no_rounding 1 == 1 /\ no_rounding 100 == 100
  /\ (0 < filesize progressive_720p)%Z
  /\ (0 <= 1 <= filesize progressive_720p)%Z
  /\ exists percentage : Q,
      progress_callback no_rounding progressive_720p [x00; x01; x02] 1
                        (mkWorld (init_session_state None) blank_page [])
      = (mkWorld (set_download_progress percentage (init_session_state None))
                 blank_page [],
         Ok tt)
      /\ 0 <= percentage <= 100.
Proof.
  assert (Hm : forall x y : Q, x <= y -> no_rounding x <= no_rounding y)
    by (intros x y H; exact H).
  split; [exact Hm |].
  split; [reflexivity |]. split; [reflexivity |]. split; [reflexivity |].
  split; [reflexivity |]. split; [split; discriminate |].
  apply (@progress_percent_in_range no_rounding Hm (Qeq_refl 0) (Qeq_refl 1)
           (Qeq_refl 100) progressive_720p [x00; x01; x02] 1
           (mkWorld (init_session_state None) blank_page [])).
  - reflexivity.
  - split; discriminate.
Defined.

Lemma scenario_A_filename_and_info_witness :
  nonempty url = true
  /\ resolver_A url = Ok (mkVideo (lit "Test: Video!") 125 (Ok [progressive_720p]))
  /\ is_progressive progressive_720p = true
  /\ subtype progressive_720p = lit "mp4"
  /\ resolution progressive_720p <> None
  /\ (let r := run_script no_rounding ascii_only ascii_only resolver_A url
                          true false None in
      download_filename (after r) = Some (lit "Test Video.mp4")
      /\ exists text,
          was_drawn info_placeholder [Markdown (Some text)] (page (fst r))
          /\ contains text (lit "2m 5s") = true
          /\ (download_error (after r) = None ->
              info_slot (page (fst r)) = [Markdown (Some text)]
              /\ video_info (after r) = Some text)).
Proof.
  do 4 (split; [reflexivity |]).
  split; [discriminate |].
  apply (@scenario_A_filename_and_info no_rounding ascii_only ascii_only resolver_A url
           None progressive_720p); try reflexivity.
  discriminate.
Defined.

Lemma attempt_starts_from_reset_witness :
  nonempty url = true /\ true || false = true
  /\ (let r := run_script no_rounding ascii_only ascii_only resolver_A url
                          true false None in
      (exists st0 rest,
          trace (fst r) = mkEvent (CallYouTube url) st0 :: rest
          /\ download_progress st0 = 0
          /\ download_complete st0 = false
          /\ download_error st0 = None
          /\ download_data st0 = None
          /\ video_info st0 = None
          /\ download_filename st0 = None
          /\ download_mime st0 = None)
      /\ (forall store',
             run_script no_rounding ascii_only ascii_only resolver_A url
                        true false store' = r)).
Proof.
  split; [reflexivity |]. split; [reflexivity |].
  apply (@attempt_starts_from_reset no_rounding ascii_only ascii_only resolver_A url
           true false None); reflexivity.
Defined.

Lemma exceptions_caught_and_reported_witness :
  nonempty url = true /\ false || true = true
  /\ resolver_C url
     = Raise (lit "regex_search: could not find match for (?:v=|\/)([0-9A-Za-z_-]{11}).*")
  /\ (let r := run_script no_rounding ascii_only ascii_only resolver_C url
                          false true None in
      snd r = Ok tt
      /\ download_error (after r)
         = Some (lit "An error occurred: regex_search: could not find match for (?:v=|\/)([0-9A-Za-z_-]{11}).*")
      /\ download_data (after r) = None
      /\ video_info (after r) = None).
Proof.
  do 3 (split; [reflexivity |]).
  destruct (@exceptions_caught_and_reported no_rounding ascii_only ascii_only
              resolver_C url false true None eq_refl eq_refl)
    as (Hok & Hresolve & _).
  split; [exact Hok |].
  exact (Hresolve _ eq_refl).
Defined.

Lemma extension_and_mime_fixed_by_kind_witness :
  nonempty url = true /\ false || true = true
  /\ (let st := after (run_script no_rounding ascii_only ascii_only resolver_broken url
                                  false true None) in
      download_filename st = Some (lit "Test Video.mp3")
      /\ download_mime st = Some (lit "audio/mp3")
      /\ endswith (lit "Test Video.mp3") (lit ".mp3") = true
      /\ lit "audio/mp3" = lit "audio/mp3").
Proof.
  split; [reflexivity |]. split; [reflexivity |].
  cbv zeta. split; [reflexivity |]. split; [reflexivity |].
  exact (@extension_and_mime_fixed_by_kind no_rounding ascii_only ascii_only
           resolver_broken url false true None
           (lit "Test Video.mp3") (lit "audio/mp3") eq_refl eq_refl eq_refl eq_refl).
Defined.

(** C10, counterexample. A stream of no bytes is downloaded: the data is
    set, to the empty byte string, and no button is drawn for it. *)
Lemma no_button_for_empty_data :
  let r := run_script no_rounding ascii_only ascii_only resolver_empty url
                      false true None in
  startable no_rounding ascii_only ascii_only None
  /\ snd r = Ok tt
  /\ download_data (after r) = Some []
  /\ download_error (after r) = None
  /\ download_filename (after r) = Some (lit "Test Video.mp3")
  /\ shows_download_button (page (fst r)) = false.
Proof.
  cbv zeta. split; [exact I |]. repeat split; reflexivity.
Qed.

Lemma button_shown_for_nonempty_data_witness :
  startable no_rounding ascii_only ascii_only None
  /\ (let r := run_script no_rounding ascii_only ascii_only resolver_A url
                          true false None in
      reachable no_rounding ascii_only ascii_only (after r)
      /\ (download_data (after r) <> None ->
          download_filename (after r) <> None /\ download_mime (after r) <> None)
      /\ shows_download_button (page (fst r)) = truthy (download_data (after r))).
Proof.
  split; [exact I |].
  apply (@button_shown_for_nonempty_data no_rounding ascii_only ascii_only
           resolver_A url true false None). exact I.
Defined.

(* ------------------------------------------------------------------ *)
(** ** Further runs *)

Lemma sanitized_fixes_clean_titles_witness :
  Forall (fun c => isalnum ascii_only c || char_in c [ch " "; ch "."; ch "_"; ch "-"]
                   = true)
         (lit "Test Vide" ++ [ch "o"])
  /\ isspace ascii_only (ch "o") = false
  /\ sanitized ascii_only ascii_only (lit "Test Vide" ++ [ch "o"])
     = lit "Test Vide" ++ [ch "o"].
Proof.
  assert (H : Forall (fun c => isalnum ascii_only c
                               || char_in c [ch " "; ch "."; ch "_"; ch "-"] = true)
                     (lit "Test Vide" ++ [ch "o"]))
    by (repeat constructor).
  split; [exact H |]. split; [reflexivity |].
  exact (@sanitized_fixes_clean_titles ascii_only ascii_only
           (lit "Test Vide") (ch "o") H eq_refl).
Defined.

Lemma filename_of_an_unusable_title_witness :
  nonempty url = true /\ true || false = true
  /\ resolver_symbols url = Ok (mkVideo (lit "?!") 10 (Ok [progressive_720p]))
  /\ Forall (fun c => isalnum ascii_only c || char_in c [ch " "; ch "."; ch "_"; ch "-"]
                      = false)
            (lit "?!")
  /\ download_filename
       (after (run_script no_rounding ascii_only ascii_only resolver_symbols url
                          true false None))
     = Some (lit ".mp4").
Proof.
  assert (H : Forall (fun c => isalnum ascii_only c
                               || char_in c [ch " "; ch "."; ch "_"; ch "-"] = false)
                     (lit "?!"))
    by (repeat constructor).
  do 3 (split; [reflexivity |]). split; [exact H |].
  exact (@filename_of_an_unusable_title no_rounding ascii_only ascii_only
           resolver_symbols url true false None
           (mkVideo (lit "?!") 10 (Ok [progressive_720p])) [progressive_720p]
           eq_refl eq_refl eq_refl eq_refl H).
Defined.


Lemma progress_at_the_ends_witness :
  (forall x y : Q, x <= y -> no_rounding x <= no_rounding y)
  /\ no_rounding 0 == 0 /\ no_rounding 1 == 1 /\ no_rounding 100 == 100
  /\ (0 < filesize progressive_720p)%Z
  /\ (exists p,
         progress_callback no_rounding progressive_720p [] (filesize progressive_720p)
                           (mkWorld (init_session_state None) blank_page [])
         = (mkWorld (set_download_progress p (init_session_state None)) blank_page [],
            Ok tt)
         /\ p == 0)
  /\ (exists p,
         progress_callback no_rounding progressive_720p [] 0
                           (mkWorld (init_session_state None) blank_page [])
         = (mkWorld (set_download_progress p (init_session_state None)) blank_page [],
            Ok tt)
         /\ p == 100).
Proof.
  assert (Hm : forall x y : Q, x <= y -> no_rounding x <= no_rounding y)
    by (intros x y H; exact H).
  split; [exact Hm |].
  do 4 (split; [reflexivity |]).
  apply (@progress_at_the_ends no_rounding Hm (Qeq_refl 0) (Qeq_refl 1) (Qeq_refl 100)
           progressive_720p []
           (mkWorld (init_session_state None) blank_page [])).
  reflexivity.
Defined.

Lemma transfer_progress_in_range_witness :
  (forall x y : Q, x <= y -> no_rounding x <= no_rounding y)
  /\ no_rounding 0 == 0 /\ no_rounding 1 == 1 /\ no_rounding 100 == 100
  /\ Forall (fun chunk : bytes => chunk <> []) payload
  /\ (Z.of_nat (List.length (List.concat payload)) <= 4 <= filesize progressive_720p)%Z
  /\ 0 <= download_progress (init_session_state None) <= 100
  /\ exists p,
      Pytube.deliver (progress_callback no_rounding) progressive_720p payload 4 []
                     (mkWorld (init_session_state None) blank_page [])
      = (mkWorld (set_download_progress p (init_session_state None)) blank_page [],
         Ok ([] ++ List.concat payload))
      /\ 0 <= p <= 100.
Proof.
  assert (Hm : forall x y : Q, x <= y -> no_rounding x <= no_rounding y)
    by (intros x y H; exact H).
  assert (Hne : Forall (fun chunk : bytes => chunk <> []) payload)
    by (repeat constructor; discriminate).
  assert (Hsize : (Z.of_nat (List.length (List.concat payload)) <= 4
                   <= filesize progressive_720p)%Z)
    by (split; discriminate).
  assert (Hp : 0 <= download_progress (init_session_state None) <= 100)
    by (split; discriminate).
  split; [exact Hm |]. do 3 (split; [reflexivity |]).
  split; [exact Hne |]. split; [exact Hsize |]. split; [exact Hp |].
  exact (@transfer_progress_in_range no_rounding Hm (Qeq_refl 0) (Qeq_refl 1)
           (Qeq_refl 100) progressive_720p payload 4 []
           (mkWorld (init_session_state None) blank_page []) Hne Hsize Hp).
Defined.

Lemma empty_url_only_warns_witness :
  nonempty (lit "") = false
  /\ (let r := run_script no_rounding ascii_only ascii_only resolver_A (lit "")
                          true false None in
      snd r = Ok tt
      /\ after r = init_session_state None
      /\ calls r = []
      /\ warnings (page (fst r)) = [lit "Please enter a YouTube URL."]).
Proof.
  split; [reflexivity |].
  exact (@empty_url_only_warns no_rounding ascii_only ascii_only resolver_A (lit "")
           true false None eq_refl).
Defined.

Lemma status_tells_the_outcome_witness :
  nonempty url = true /\ true || false = true
  /\ status_slot
       (page (fst (run_script no_rounding ascii_only ascii_only resolver_A url
                              true false None)))
     = [SuccessBox (lit "Download Ready!")].
Proof.
  split; [reflexivity |]. split; [reflexivity |].
  rewrite (@status_tells_the_outcome no_rounding ascii_only ascii_only resolver_A url
             true false None eq_refl eq_refl).
  reflexivity.
Defined.

Lemma resolver_calls_in_order_witness :
  nonempty url = true /\ true || false = true
  /\ calls (run_script no_rounding ascii_only ascii_only resolver_A url
                       true false None)
     = [CallYouTube url; CallStreams; CallStreamToBuffer progressive_720p].
Proof.
  split; [reflexivity |]. split; [reflexivity |].
  exact (@resolver_calls_in_order no_rounding ascii_only ascii_only resolver_A url
           true false None eq_refl eq_refl).
Defined.

Lemma error_message_forms_witness :
  nonempty url = true /\ false || true = true
  /\ download_error
       (after (run_script no_rounding ascii_only ascii_only resolver_broken url
                          false true None))
     = Some (lit "An error occurred: Connection reset by peer")
  /\ (lit "An error occurred: Connection reset by peer"
      = lit "No suitable MP3 stream found."
      \/ exists e, lit "An error occurred: Connection reset by peer"
                   = lit "An error occurred: " ++ e).
Proof.
  do 3 (split; [reflexivity |]).
  exact (@error_message_forms no_rounding ascii_only ascii_only resolver_broken url
           false true None (lit "An error occurred: Connection reset by peer")
           eq_refl eq_refl eq_refl).
Defined.

Lemma info_cleared_by_exceptions_only_witness :
  nonempty url = true /\ false || true = true
  /\ (let st := after (run_script no_rounding ascii_only ascii_only resolver_broken url
                                  false true None) in
      video_info st = None
      <-> exists e, download_error st = Some (lit "An error occurred: " ++ e)).
Proof.
  split; [reflexivity |]. split; [reflexivity |].
  exact (@info_cleared_by_exceptions_only no_rounding ascii_only ascii_only
           resolver_broken url false true None eq_refl eq_refl).
Defined.

Lemma complete_only_with_data_witness :
  let st := after (run_script no_rounding ascii_only ascii_only resolver_A url
                              true false None) in
  reachable no_rounding ascii_only ascii_only st
  /\ download_complete st = true
  /\ download_data st <> None.
Proof.
  cbv zeta.
  assert (H : reachable no_rounding ascii_only ascii_only
                        (after (run_script no_rounding ascii_only ascii_only
                                           resolver_A url true false None)))
    by apply reachable_first.
  split; [exact H |]. split; [reflexivity |].
  exact (@complete_only_with_data no_rounding ascii_only ascii_only _ H eq_refl).
Defined.

Lemma download_survives_reruns_witness :
  let st := after (run_script no_rounding ascii_only ascii_only resolver_A url
                              true false None) in
  nonempty url = true /\ true || false = true
  /\ download_data st = Some [x00; x01; x02; x03]
  /\ nonempty [x00; x01; x02; x03] = true
  /\ (let r := run_script no_rounding ascii_only ascii_only resolver_C (lit "")
                          false false (Some st) in
      after r = st
      /\ status_slot (page (fst r)) = []
      /\ info_slot (page (fst r)) = []
      /\ exists name mime note,
          download_filename st = Some name
          /\ download_mime st = Some mime
          /\ button_slot (page (fst r))
             = [DownloadButton (lit "Click to Download " ++ name)
                               (Some [x00; x01; x02; x03]) (Some name) (Some mime);
                InfoBox note]).
Proof.
  cbv zeta. do 4 (split; [reflexivity |]).
  exact (@download_survives_reruns no_rounding ascii_only ascii_only resolver_A url
           true false None resolver_C (lit "") [x00; x01; x02; x03]
           eq_refl eq_refl eq_refl eq_refl).
Defined.

Lemma error_survives_reruns_witness :
  let st := after (run_script no_rounding ascii_only ascii_only resolver_A url
                              false true None) in
  nonempty url = true /\ false || true = true
  /\ download_error st = Some (lit "No suitable MP3 stream found.")
  /\ (let r := run_script no_rounding ascii_only ascii_only resolver_C (lit "")
                          false false (Some st) in
      after r = st
      /\ status_slot (page (fst r))
         = [ErrorBox (Some (lit "No suitable MP3 stream found."))]
      /\ button_slot (page (fst r)) = []
      /\ info_slot (page (fst r))
         = match video_info st with
           | Some text => [Markdown (Some text)]
           | None => []
           end).
Proof.
  cbv zeta. do 3 (split; [reflexivity |]).
  exact (@error_survives_reruns no_rounding ascii_only ascii_only resolver_A url
           false true None resolver_C (lit "") (lit "No suitable MP3 stream found.")
           eq_refl eq_refl eq_refl).
Defined.

Lemma transfer_decides_attempt_witness :
  nonempty url = true /\ false || true = true
  /\ resolver_broken url = Ok (test_video [audio_broken])
  /\ best_audio [audio_broken] = Some audio_broken
  /\ Forall (fun chunk : bytes => chunk <> []) (chunks audio_broken)
  /\ (Z.of_nat (List.length (List.concat (chunks audio_broken)))
      <= filesize audio_broken)%Z
  /\ (let st := after (run_script no_rounding ascii_only ascii_only resolver_broken url
                                  false true None) in
      download_data st = None
      /\ download_error st = Some (lit "An error occurred: Connection reset by peer")).
Proof.
  assert (Hne : Forall (fun chunk : bytes => chunk <> []) (chunks audio_broken))
    by (repeat constructor; discriminate).
  assert (Hsize : (Z.of_nat (List.length (List.concat (chunks audio_broken)))
                   <= filesize audio_broken)%Z)
    by discriminate.
  do 4 (split; [reflexivity |]). split; [exact Hne |]. split; [exact Hsize |].
  exact (@transfer_decides_attempt no_rounding ascii_only ascii_only resolver_broken
           url false true None (test_video [audio_broken]) [audio_broken] audio_broken
           eq_refl eq_refl eq_refl eq_refl eq_refl Hne Hsize).
Defined.

Lemma zero_size_stream_fails_witness :
  nonempty url = true /\ false || true = true
  /\ resolver_zero_size url = Ok (test_video [audio_zero_size])
  /\ best_audio [audio_zero_size] = Some audio_zero_size
  /\ filesize audio_zero_size = 0%Z
  /\ chunks audio_zero_size <> []
  /\ (let st := after (run_script no_rounding ascii_only ascii_only resolver_zero_size
                                  url false true None) in
      download_error st = Some (lit "An error occurred: division by zero")
      /\ download_data st = None).
Proof.
  assert (Hc : chunks audio_zero_size <> []) by discriminate.
  do 5 (split; [reflexivity |]). split; [exact Hc |].
  exact (@zero_size_stream_fails no_rounding ascii_only ascii_only resolver_zero_size
           url false true None (test_video [audio_zero_size]) [audio_zero_size]
           audio_zero_size eq_refl eq_refl eq_refl eq_refl eq_refl eq_refl Hc).
Defined.
